(** * Medical-data text-to-SQL function app: query pipeline, sample fetch, upload

    A shallow embedding of [src/function_app.py].  Python [str] values are
    sequences of Unicode code points; the collaborators (the document store,
    the completion service, the clock and the UUID source) are oracles that
    answer from the history of calls made so far. *)

From Stdlib Require Import ZArith NArith List Bool Lia String Ascii DecimalString.
From stdpp Require Import gmap list.
Import ListNotations.

Open Scope N_scope.
Set Warnings "-register-all".

(** ** Text *)

(** A Python [str]: the list of its code points. *)
Abbreviation str := (list N).

(** A literal of the source, written as a Rocq string. *)
Definition lit (s : string) : str := map N_of_ascii (list_ascii_of_string s).

Definition NL : N := 10.
Definition BACKTICK : N := 96.

(** [str.isspace] on one code point: the code points [str.strip()] removes. *)
Definition isspace (c : N) : bool :=
  ((9 <=? c) && (c <=? 13)) || ((28 <=? c) && (c <=? 32))
  || (c =? 133) || (c =? 160) || (c =? 5760)
  || ((8192 <=? c) && (c <=? 8202))
  || (c =? 8232) || (c =? 8233) || (c =? 8239) || (c =? 8287) || (c =? 12288).

Fixpoint lstrip (s : str) : str :=
  match s with
  | [] => []
  | c :: r => if isspace c then lstrip r else s
  end.

Definition rstrip (s : str) : str := rev (lstrip (rev s)).

(** [s.strip()] *)
Definition strip (s : str) : str := rstrip (lstrip s).

(** [s.startswith(p)] *)
Fixpoint startswith (s p : str) : bool :=
  match p, s with
  | [], _ => true
  | _ :: _, [] => false
  | a :: p', c :: s' => (c =? a) && startswith s' p'
  end.

(** ** The two substitutions of the sanitizer

    [re.sub(fence + r'\n?', '', s)] for a literal [fence]: scanning from the
    left, every occurrence of [fence], together with one line feed that
    follows it directly, is removed; the scan resumes after the match. *)

(** Length of the match of [fence\n?] at the head of [s], if there is one. *)
Definition match_fence (fence s : str) : option nat :=
  if startswith s (fence ++ [NL]) then Some (S (length fence))
  else if startswith s fence then Some (length fence)
  else None.

(** [skip] counts the characters of the current match still to be dropped. *)
Fixpoint sub_scan (fence : str) (skip : nat) (s : str) : str :=
  match s with
  | [] => []
  | c :: r =>
      match skip with
      | S k => sub_scan fence k r
      | O =>
          match match_fence fence s with
          | Some (S k) => sub_scan fence k r
          | _ => c :: sub_scan fence 0 r
          end
      end
  end.

Definition re_sub_remove (fence s : str) : str := sub_scan fence 0 s.

Definition FENCE_SQL : str := lit "```sql".
Definition FENCE : str := lit "```".

(** [generate_sql_query], lines 244-249: the clean-up of the completion text. *)
Definition sanitize (content : str) : str :=
  let sql_query := strip content in
  let sql_query := re_sub_remove FENCE_SQL sql_query in
  let sql_query := re_sub_remove FENCE sql_query in
  strip sql_query.

(** ** Numbers as text *)

Definition is_digit (c : N) : bool := (48 <=? c) && (c <=? 57).

Fixpoint digits_value (acc : Z) (s : str) : option Z :=
  match s with
  | [] => Some acc
  | c :: r =>
      if is_digit c then digits_value (10 * acc + Z.of_N (c - 48))%Z r else None
  end.

(** A run of one to 640 ASCII digits: below the interpreter's smallest
    configurable limit on the length of a decimal literal. *)
Definition digit_run (s : str) : option Z :=
  match s with
  | [] => None
  | _ :: _ => if (length s <=? 640)%nat then digits_value 0%Z s else None
  end.

(** [int(s)] where [s] is an optional sign and a digit run. *)
Definition plain_int (s : str) : option Z :=
  match s with
  | [] => None
  | c :: r =>
      if c =? 45 then option_map Z.opp (digit_run r)
      else if c =? 43 then digit_run r
      else digit_run s
  end.

(** The white space [int] skips around a literal in ASCII text. *)
Definition is_c_space (c : N) : bool := ((9 <=? c) && (c <=? 13)) || (c =? 32).

Fixpoint skip_c_space (s : str) : str :=
  match s with
  | [] => []
  | c :: r => if is_c_space c then skip_c_space r else s
  end.

(** Digits in groups that single underscores separate; [after_digit] tells
    whether the character before was a digit. *)
Fixpoint grouped_digits (acc : Z) (after_digit : bool) (s : str) : option Z :=
  match s with
  | [] => if after_digit then Some acc else None
  | c :: r =>
      if is_digit c then grouped_digits (10 * acc + Z.of_N (c - 48))%Z true r
      else if (c =? 95) && after_digit then grouped_digits acc false r
      else None
  end.

(** [int(s)] for ASCII text of at most 640 characters; [None]: ValueError. *)
Definition ascii_int (s : str) : option Z :=
  match rev (skip_c_space (rev (skip_c_space s))) with
  | [] => None
  | c :: r =>
      if c =? 45 then option_map Z.opp (grouped_digits 0%Z false r)
      else if c =? 43 then grouped_digits 0%Z false r
      else grouped_digits 0%Z false (c :: r)
  end.

Definition is_ascii (s : str) : bool := forallb (fun c => c <? 128) s.

Definition hex_digit (n : N) : N := if n <? 10 then 48 + n else 87 + n.

(** One character of [repr(s)] for ASCII text quoted with [quote]. *)
Definition repr_char (quote c : N) : str :=
  if (c =? 92) || (c =? quote) then [92; c]
  else if c =? 9 then [92; 116]
  else if c =? 10 then [92; 110]
  else if c =? 13 then [92; 114]
  else if (c <? 32) || (c =? 127) then [92; 120; hex_digit (c / 16); hex_digit (c mod 16)]
  else [c].

(** [repr(s)] for ASCII text: in double quotes when [s] has a single quote
    and no double quote, in single quotes otherwise. *)
Definition ascii_repr (s : str) : str :=
  let quote := if existsb (N.eqb 39) s && negb (existsb (N.eqb 34) s) then 34 else 39 in
  [quote] ++ flat_map (repr_char quote) s ++ [quote].

(** The text of the ValueError of [int(s)]: the literal is shown by the first
    200 characters of its [repr]. *)
Definition invalid_literal (s : str) : str :=
  lit "invalid literal for int() with base 10: " ++ take 200 (ascii_repr s).

(** [str(n)] for an integer, as f-strings format it. *)
Definition str_of_Z (n : Z) : str :=
  lit (DecimalString.NilZero.string_of_int (Z.to_int n)).

(** ** Values, records, documents *)

(** A value decoded from JSON. A float is kept by its 64 bits. *)
Inductive json : Type :=
  | JNull
  | JBool (b : bool)
  | JInt (n : Z)
  | JFloat (bits : N)
  | JStr (s : str)
  | JList (items : list json)
  | JDict (fields : list (str * json)).

(** [Dict[str, Any]]: a caller's record. *)
Abbreviation record := (gmap str json).

(** The dict literal built by [upload_medical_records]. *)
Record Document : Type := mkDocument {
  doc_id : str;
  doc_MEDCode : json;
  doc_Slot : json;
  doc_Value : str;
  doc_timestamp : str
}.

(** ** Exceptions *)

Inductive exn_class : Type :=
  ValueError | RuntimeError | IndexError | AttributeError | KeyError | ServiceError.

Record exn : Type := mkExn { exn_kind : exn_class; exn_message : str }.

(** [str(e)] *)
Definition str_of_exn (e : exn) : str := exn_message e.

(** ** The processor, its collaborators and the history of calls *)

Inductive Call : Type :=
  | CallCosmosSetup
  | CallOpenAISetup
  | CallCompletion (system_message : str)
  | CallQueryItems (query : str)
  | CallCreateItem (document : Document)
  | CallStr (value : json)
  | CallUuid4
  | CallUtcnow.

Inductive handle : Type := Handle.

(** The attributes of [MedicalDataProcessor] the methods read, and the calls
    made to the outside so far (oldest first). *)
Record World : Type := mkWorld {
  _initialized : bool;
  container : option handle;
  openai_client : option handle;
  calls : list Call
}.

(** What is outside the repository. Each collaborator answers from the calls
    made before and from its arguments; an [exn] is what it raises. *)
Record Env : Type := mkEnv {
  (** [str.upper()] on one code point above the ASCII range *)
  unicode_upper : N -> str;
  (** [int(s)] on text that is not ASCII or is longer than 640 characters *)
  builtin_int : str -> exn + Z;
  (** [str(v)] on a value that is not a string *)
  builtin_str : list Call -> json -> exn + str;
  (** the work of [_setup_cosmos_client]; [None]: no exception *)
  cosmos_setup : list Call -> option exn;
  (** the work of [_setup_openai_client] *)
  openai_setup : list Call -> option exn;
  (** [openai_client.chat.completions.create]: the [message.content] of each choice *)
  chat_completions_create : list Call -> str -> exn + list (option str);
  (** [container.query_items], iterated to its end: the items as decoded from
      JSON, objects or, for a query that selects values, anything else *)
  query_items : list Call -> str -> exn + list json;
  (** [container.create_item] *)
  create_item : list Call -> Document -> option exn;
  (** [str(uuid.uuid4())] *)
  uuid4 : list Call -> str;
  (** [datetime.utcnow().isoformat()] *)
  utcnow : list Call -> str
}.

(** A computation that may raise and that reads and changes the world. *)
Definition M (A : Type) : Type := World -> (exn + A) * World.

Definition ret {A} (a : A) : M A := fun w => (inr a, w).

Definition raise {A} (e : exn) : M A := fun w => (inl e, w).

Definition bind {A B} (m : M A) (k : A -> M B) : M B :=
  fun w => match m w with
           | (inl e, w') => (inl e, w')
           | (inr a, w') => k a w'
           end.

(** [try: m  except Exception as e: h e] *)
Definition try_except {A} (m : M A) (h : exn -> M A) : M A :=
  fun w => match m w with
           | (inl e, w') => h e w'
           | (inr a, w') => (inr a, w')
           end.

Notation "x <- m ;; k" := (bind m (fun x => k))
  (at level 100, m at next level, right associativity).
Notation "m ;;; k" := (bind m (fun _ => k))
  (at level 100, right associativity).

Definition record_call (c : Call) (w : World) : World :=
  mkWorld (_initialized w) (container w) (openai_client w) (calls w ++ [c]).

(** A call to a collaborator: answered from the history, then recorded. *)
Definition call {A} (c : Call) (answer : list Call -> exn + A) : M A :=
  fun w => (answer (calls w), record_call c w).

Definition call_total {A} (c : Call) (answer : list Call -> A) : M A :=
  call c (fun h => inr (answer h)).

Definition call_unit (c : Call) (answer : list Call -> option exn) : M unit :=
  call c (fun h => match answer h with Some e => inl e | None => inr tt end).

Definition get_world : M World := fun w => (inr w, w).

Definition set_container (c : option handle) : M unit :=
  fun w => (inr tt, mkWorld (_initialized w) c (openai_client w) (calls w)).

Definition set_openai_client (c : option handle) : M unit :=
  fun w => (inr tt, mkWorld (_initialized w) (container w) c (calls w)).

Definition set_initialized (b : bool) : M unit :=
  fun w => (inr tt, mkWorld b (container w) (openai_client w) (calls w)).

(** ** Built-ins that depend on the interpreter's tables *)

Definition upper_char (env : Env) (c : N) : str :=
  if c <? 128 then [if (97 <=? c) && (c <=? 122) then c - 32 else c]
  else unicode_upper env c.

(** [s.upper()] *)
Definition upper (env : Env) (s : str) : str := flat_map (upper_char env) s.

(** [int(s)] *)
Definition py_int (env : Env) (s : str) : exn + Z :=
  match plain_int s with
  | Some n => inr n
  | None =>
      if is_ascii s && (length s <=? 640)%nat
      then match ascii_int s with
           | Some n => inr n
           | None => inl (mkExn ValueError (invalid_literal s))
           end
      else builtin_int env s
  end.

(** [str(v)] *)
Definition py_str (env : Env) (v : json) : M str :=
  match v with
  | JStr s => ret s
  | _ => call (CallStr v) (fun h => builtin_str env h v)
  end.

(** ** The prompt *)

Definition DQ : N := 34.

(** ["\n".join(lines)] *)
Fixpoint join_lines (lines : list str) : str :=
  match lines with
  | [] => []
  | [l] => l
  | l :: rest => l ++ [NL] ++ join_lines rest
  end.

(** The text returned by [get_database_schema], line by line. *)
Definition SCHEMA_LINES : list str :=
  [ lit "";
    lit "        Database Schema:";
    lit "        Container: medical_records";
    lit "        Document Structure:";
    lit "        - id (string): Unique document identifier";
    lit "        - MEDCode (number): Medical code identifier";
    lit "        - Slot (number): Slot number for the measurement  ";
    lit "        - Value (string): The measurement value or description";
    lit "        - timestamp (string): When the record was created";
    lit "        ";
    lit "        SQL Query Guidelines for CosmosDB:";
    lit "        - Use SELECT * FROM c WHERE ... syntax";
    lit "        - Reference fields with c.MEDCode, c.Slot, c.Value";
    lit "        - Use LIKE for text matching: c.Value LIKE '%search%'";
    lit "        - Use = for exact matches: c.MEDCode = 1302";
    lit "        - Use AND, OR for complex conditions";
    lit "        - Use ORDER BY c.MEDCode for sorting";
    lit "        ";
    lit "        Sample data structure:";
    lit "        {";
    lit "            " ++ [DQ] ++ lit "id" ++ [DQ] ++ lit ": " ++ [DQ] ++ lit "unique-id" ++ [DQ] ++ lit ",";
    lit "            " ++ [DQ] ++ lit "MEDCode" ++ [DQ] ++ lit ": 1302,";
    lit "            " ++ [DQ] ++ lit "Slot" ++ [DQ] ++ lit ": 150,";
    lit "            " ++ [DQ] ++ lit "Value" ++ [DQ] ++ lit ": " ++ [DQ] ++ lit "19928" ++ [DQ] ++ lit ",";
    lit "            " ++ [DQ] ++ lit "timestamp" ++ [DQ] ++ lit ": " ++ [DQ] ++ lit "2024-08-02T10:00:00Z" ++ [DQ];
    lit "        }";
    lit "        " ].

(** The system message up to the schema. *)
Definition SYSTEM_HEAD_LINES : list str :=
  [ lit "You are an expert SQL query generator for medical data analysis using Azure CosmosDB.";
    lit "";
    lit "        " ].

(** The system message from the schema to the user text. *)
Definition SYSTEM_TAIL_LINES : list str :=
  [ lit "";
    lit "        ";
    lit "        Rules:";
    lit "        1. Only generate SELECT statements";
    lit "        2. Use CosmosDB SQL syntax: SELECT ... FROM c WHERE ...";
    lit "        3. Return only the SQL query, no explanations or markdown formatting";
    lit "        4. Handle text matching with LIKE for partial matches";
    lit "        5. Use proper quoting for text values";
    lit "        6. Consider case-insensitive matching with UPPER() or LOWER() functions";
    lit "        7. Always reference fields with 'c.' prefix (e.g., c.MEDCode, c.Slot, c.Value)";
    lit "        ";
    lit "        Common query patterns:";
    lit "        - " ++ [DQ] ++ lit "Find all records for MEDCode X" ++ [DQ] ++ lit " -> SELECT * FROM c WHERE c.MEDCode = X";
    lit "        - " ++ [DQ] ++ lit "Show measurements containing 'sodium'" ++ [DQ] ++ lit " -> SELECT * FROM c WHERE CONTAINS(UPPER(c.Value), UPPER('sodium'))";
    lit "        - " ++ [DQ] ++ lit "Get all slot 150 records" ++ [DQ] ++ lit " -> SELECT * FROM c WHERE c.Slot = 150";
    lit "        - " ++ [DQ] ++ lit "Find records with MEDCode 1302 and slot 150" ++ [DQ] ++ lit " -> SELECT * FROM c WHERE c.MEDCode = 1302 AND c.Slot = 150";
    lit "        ";
    lit "        Convert this natural language query to CosmosDB SQL: " ].

Definition get_database_schema : str := join_lines SCHEMA_LINES.

(** The f-string of [generate_sql_query]: the user text is appended as it is. *)
Definition system_message (natural_language_query : str) : str :=
  join_lines SYSTEM_HEAD_LINES ++ get_database_schema
  ++ join_lines SYSTEM_TAIL_LINES ++ natural_language_query.

(** ** Results handed back to the callers *)

(** The dict returned by [process_natural_language_query]; a key the dict
    does not have ([error] on success) is [None]. *)
Record Outcome : Type := mkOutcome {
  natural_language_query : str;
  generated_sql : option str;
  results : option (list json);
  row_count : Z;
  success : bool;
  error : option str;
  timestamp : str
}.

(** The dict returned by [upload_medical_records]. *)
Record UploadResult : Type := mkUploadResult {
  uploaded_count : Z;
  total_records : Z;
  errors : list str;
  upload_success : bool;
  upload_timestamp : str
}.

(** The JSON body of the sample-data endpoint, before [json.dumps]. *)
Inductive Body : Type :=
  | SampleBody (sample_data : list json) (count : Z) (ok : bool) (at_time : str)
  | ErrorBody (message : str) (ok : bool) (at_time : str).

Record HttpResponse : Type := mkHttpResponse { status_code : Z; body : Body }.

(** ** MedicalDataProcessor *)

Definition SELECT : str := lit "SELECT".

Definition REQUIRED_FIELDS : list str := [lit "MEDCode"; lit "Slot"; lit "Value"].

(** [min(max(limit, 1), 100)] *)
Definition clamp_limit (limit : Z) : Z := Z.min (Z.max limit 1) 100.

(** The f-string of [get_sample_data]. *)
Definition sample_query (limit : Z) : str :=
  lit "SELECT TOP " ++ str_of_Z limit ++ lit " * FROM c ORDER BY c.MEDCode".

(** [all(field in record for field in [...])] *)
Definition has_required_fields (r : record) : bool :=
  forallb (fun field => match r !! field with Some _ => true | None => false end)
          REQUIRED_FIELDS.

(** [record[key]] *)
Definition getitem (r : record) (key : str) : M json :=
  match r !! key with
  | Some v => ret v
  | None => raise (mkExn KeyError (lit "'" ++ key ++ lit "'"))
  end.

(** [response.choices[0].message.content] *)
Definition first_choice_content (choices : list (option str)) : M str :=
  match choices with
  | [] => raise (mkExn IndexError (lit "list index out of range"))
  | None :: _ =>
      raise (mkExn AttributeError (lit "'NoneType' object has no attribute 'strip'"))
  | Some content :: _ => ret content
  end.

Definition missing_fields_error (i : nat) : str :=
  lit "Record " ++ str_of_Z (Z.of_nat i)
  ++ lit ": Missing required fields (MEDCode, Slot, Value)".

Definition record_error (i : nat) (e : exn) : str :=
  lit "Record " ++ str_of_Z (Z.of_nat i) ++ lit ": " ++ str_of_exn e.

Section Processor.

Context (env : Env).

Definition now : M str := call_total CallUtcnow (utcnow env).

Definition _setup_cosmos_client : M unit :=
  call_unit CallCosmosSetup (cosmos_setup env) ;;;
  set_container (Some Handle).

Definition _setup_openai_client : M unit :=
  call_unit CallOpenAISetup (openai_setup env) ;;;
  set_openai_client (Some Handle).

Definition _ensure_initialized : M unit :=
  w <- get_world ;;
  if _initialized w then ret tt
  else (_setup_cosmos_client ;;; _setup_openai_client ;;; set_initialized true).

Definition generate_sql_query (natural_language_query : str) : M str :=
  _ensure_initialized ;;;
  w <- get_world ;;
  match openai_client w with
  | None => raise (mkExn RuntimeError (lit "OpenAI client not properly initialized"))
  | Some _ =>
      let message := system_message natural_language_query in
      choices <- call (CallCompletion message)
                      (fun h => chat_completions_create env h message) ;;
      content <- first_choice_content choices ;;
      ret (sanitize content)
  end.

(** [sql_query.strip().upper().startswith('SELECT')] *)
Definition read_only_guard (sql_query : str) : bool :=
  startswith (upper env (strip sql_query)) SELECT.

Definition execute_query (sql_query : str) : M (list json) :=
  _ensure_initialized ;;;
  w <- get_world ;;
  match container w with
  | None => raise (mkExn RuntimeError (lit "Cosmos DB container not properly initialized"))
  | Some _ =>
      if negb (read_only_guard sql_query)
      then raise (mkExn ValueError (lit "Only SELECT queries are allowed"))
      else call (CallQueryItems sql_query) (fun h => query_items env h sql_query)
  end.

Definition process_natural_language_query (query : str) : M Outcome :=
  try_except
    (sql_query <- generate_sql_query query ;;
     rows <- execute_query sql_query ;;
     at_time <- now ;;
     ret (mkOutcome query (Some sql_query) (Some rows)
                    (Z.of_nat (length rows)) true None at_time))
    (fun e =>
     at_time <- now ;;
     ret (mkOutcome query None None 0%Z false (Some (str_of_exn e)) at_time)).

Definition get_sample_data (limit : Z) : M (list json) :=
  _ensure_initialized ;;;
  w <- get_world ;;
  match container w with
  | None => raise (mkExn RuntimeError (lit "Cosmos DB container not properly initialized"))
  | Some _ =>
      let query := sample_query limit in
      call (CallQueryItems query) (fun h => query_items env h query)
  end.

(** One turn of the loop of [upload_medical_records], on record [i]. *)
Definition upload_record (i : nat) (r : record) (acc : Z * list str)
  : M (Z * list str) :=
  try_except
    (if negb (has_required_fields r)
     then ret (fst acc, snd acc ++ [missing_fields_error i])
     else
       id <- call_total CallUuid4 (uuid4 env) ;;
       medcode <- getitem r (lit "MEDCode") ;;
       slot <- getitem r (lit "Slot") ;;
       value <- getitem r (lit "Value") ;;
       value <- py_str env value ;;
       at_time <- now ;;
       let document := mkDocument id medcode slot value at_time in
       call_unit (CallCreateItem document) (fun h => create_item env h document) ;;;
       ret ((fst acc + 1)%Z, snd acc))
    (fun e => ret (fst acc, snd acc ++ [record_error i e])).

Fixpoint upload_loop (i : nat) (records : list record) (acc : Z * list str)
  : M (Z * list str) :=
  match records with
  | [] => ret acc
  | r :: rest => acc' <- upload_record i r acc ;; upload_loop (S i) rest acc'
  end.

Definition upload_medical_records (records : list record) : M UploadResult :=
  _ensure_initialized ;;;
  w <- get_world ;;
  match container w with
  | None => raise (mkExn RuntimeError (lit "Cosmos DB container not properly initialized"))
  | Some _ =>
      acc <- upload_loop 0 records (0%Z, []) ;;
      at_time <- now ;;
      ret (mkUploadResult (fst acc) (Z.of_nat (length records)) (snd acc)
                          (0 <? fst acc)%Z at_time)
  end.

(** [http_get_sample_data]; [params] are the query parameters of the request. *)
Definition http_get_sample_data (params : gmap str str) : M HttpResponse :=
  try_except
    (limit <- (fun w => (py_int env (default (lit "10") (params !! lit "limit")), w)) ;;
     let limit := clamp_limit limit in
     sample_data <- get_sample_data limit ;;
     at_time <- now ;;
     ret (mkHttpResponse 200 (SampleBody sample_data (Z.of_nat (length sample_data))
                                         true at_time)))
    (fun e =>
     at_time <- now ;;
     ret (mkHttpResponse 500 (ErrorBody (lit "Internal server error: " ++ str_of_exn e)
                                        false at_time))).

End Processor.

(** ** Notions of the specification *)

(** The first white-space-delimited token of a text. *)
Fixpoint take_token (s : str) : str :=
  match s with
  | [] => []
  | c :: r => if isspace c then [] else c :: take_token r
  end.

Definition leading_token (s : str) : str := take_token (lstrip s).

(** The guard in the specification's words: the leading token, compared
    without regard to case, is exactly the keyword. *)
Definition leading_token_is_select (env : Env) (s : str) : bool :=
  bool_decide (upper env (leading_token s) = SELECT).

(** The queries sent to the store among some calls. *)
Definition store_queries (cs : list Call) : list str :=
  omap (fun c => match c with CallQueryItems q => Some q | _ => None end) cs.

(** The documents written to the store among some calls. *)
Definition store_writes (cs : list Call) : list Document :=
  omap (fun c => match c with CallCreateItem d => Some d | _ => None end) cs.

(** A processor that has connected to both services already. *)
Definition connected (w : World) : Prop :=
  _initialized w = true /\ container w = Some Handle /\ openai_client w = Some Handle.

(** ** Scenarios: concrete collaborators *)

(** Collaborators that never fail: the completion service answers [content],
    the store returns [rows] and accepts every document. *)
Definition scripted_env (content : option str) (rows : list json) : Env :=
  mkEnv (fun c => [c])
        (fun s => inl (mkExn ValueError (invalid_literal s)))
        (fun _ v => match v with
                    | JInt n => inr (str_of_Z n)
                    | _ => inr (lit "value")
                    end)
        (fun _ => None)
        (fun _ => None)
        (fun _ _ => inr [content])
        (fun _ _ => inr rows)
        (fun _ _ => None)
        (fun h => lit "uuid-" ++ str_of_Z (Z.of_nat (length h)))
        (fun h => lit "T" ++ str_of_Z (Z.of_nat (length h))).

(** The processor as [__init__] leaves it. *)
Definition new_processor : World := mkWorld false None None [].

Definition SELECT_1302 : str := lit "SELECT * FROM c WHERE c.MEDCode = 1302".
Definition DELETE_1302 : str := lit "DELETE FROM c WHERE c.MEDCode = 1302".
Definition SELECTED_QUERY : str := lit "SELECTED * FROM c".
Definition SHOW_1302 : str := lit "Show me all records for MEDCode 1302".

(** The completion service answers with a DELETE statement. *)
Definition DELETE_ENV : Env := scripted_env (Some DELETE_1302) [].

(** The processor once both services are connected, before any other call. *)
Definition ready_processor : World := mkWorld true (Some Handle) (Some Handle) [].

(** [new_processor] after a successful [generate_sql_query] for [SHOW_1302]. *)
Definition after_generation : World :=
  mkWorld true (Some Handle) (Some Handle)
          [CallCosmosSetup; CallOpenAISetup; CallCompletion (system_message SHOW_1302)].

Definition LOWER_SELECT : str := lit "  select * from c".

Definition record_1302_150 : record :=
  list_to_map [(lit "MEDCode", JInt 1302); (lit "Slot", JInt 150);
               (lit "Value", JStr (lit "19928"))].

Definition record_1303_151 : record :=
  list_to_map [(lit "MEDCode", JInt 1303); (lit "Slot", JInt 151);
               (lit "Value", JInt 80)].

(** A record without its [Value]. *)
Definition record_no_value : record :=
  list_to_map [(lit "MEDCode", JInt 1304); (lit "Slot", JInt 150)].

Definition batch_one_missing : list record :=
  [record_1302_150; record_no_value; record_1303_151].


Definition FENCED_SELECT : str :=
  lit "```sql" ++ [NL] ++ lit "SELECT * FROM c WHERE c.MEDCode = 1302" ++ [NL] ++ lit "```".

(** [t] occurs in [s] as a contiguous piece. *)
Definition Occurs (t s : str) : Prop := exists a b, s = a ++ t ++ b.

Definition head_is_text (s : str) : Prop :=
  match s with [] => True | c :: _ => isspace c = false end.

Definition last_is_text (s : str) : Prop := head_is_text (rev s).

(** ** Notions used by the theorems *)

Definition is_text (c : N) : bool := negb (isspace c).

(** The failed outcome built by the handler of [process_natural_language_query]. *)
Definition failed_outcome (env : Env) (query : str) (e : exn) (w : World)
  : (exn + Outcome) * World :=
  (inr (mkOutcome query None None 0%Z false (Some (str_of_exn e))
                  (utcnow env (calls w))),
   record_call CallUtcnow w).

(** The attributes set by [_ensure_initialized] go together. *)
Definition wf_world (w : World) : Prop :=
  _initialized w = true ->
  container w = Some Handle /\ openai_client w = Some Handle.

(** No call to the store separates two worlds. *)
Definition same_store (w w' : World) : Prop :=
  store_queries (calls w') = store_queries (calls w)
  /\ store_writes (calls w') = store_writes (calls w).

(** [int(req.params.get('limit', '10'))] *)
Definition requested_limit (env : Env) (params : gmap str str) : exn + Z :=
  py_int env (default (lit "10") (params !! lit "limit")).

(** [s] is what [str(v)] returned. *)
Definition str_result (env : Env) (v : json) (s : str) : Prop :=
  v = JStr s \/ exists h, builtin_str env h v = inr s.

(** The document [d] was built by the writer from the caller's record [r]. *)
Definition built_from (env : Env) (r : record) (d : Document) : Prop :=
  (exists h, doc_id d = uuid4 env h)
  /\ (exists h, doc_timestamp d = utcnow env h)
  /\ r !! lit "MEDCode" = Some (doc_MEDCode d)
  /\ r !! lit "Slot" = Some (doc_Slot d)
  /\ exists v, r !! lit "Value" = Some v /\ str_result env v (doc_Value d).


(** The store accepts every document, and [str] converts every value. *)
Definition uploads_succeed (env : Env) : Prop :=
  (forall h d, create_item env h d = None)
  /\ (forall h v, exists s, builtin_str env h v = inr s).

(** The errors the validation reports for a batch whose first index is [i]. *)
Fixpoint missing_errors (i : nat) (records : list record) : list str :=
  match records with
  | [] => []
  | r :: rest =>
      (if has_required_fields r then [] else [missing_fields_error i])
      ++ missing_errors (S i) rest
  end.

Definition valid_count (records : list record) : nat :=
  length (List.filter has_required_fields records).


(** The result of uploading a complete record and one without its value to a
    store that refuses every document. *)
Definition NOTHING_UPLOADED : UploadResult :=
  mkUploadResult 0 2
                 [record_error 0 (mkExn ServiceError (lit "Conflict"));
                  missing_fields_error 1]
                 false (lit "T").

(** ** Further notions and scenarios *)

(** [t in s] for two texts, decided from the left. *)
Fixpoint occursb (t s : str) : bool :=
  startswith s t || match s with [] => false | _ :: r => occursb t r end.

Definition PADDED_SELECT : str := lit "  SELECT * FROM c " ++ [NL].

Definition STACKED_QUERY : str := lit "SELECT * FROM c; DELETE FROM c".

Definition BLANK_QUERY : str := lit "  " ++ [NL; 9].

(** Collaborators where the connection to the completion service fails. *)
Definition OPENAI_DOWN_ENV : Env :=
  mkEnv (fun c => [c])
        (fun s => inl (mkExn ValueError (invalid_literal s)))
        (fun _ _ => inr (lit "value"))
        (fun _ => None)
        (fun _ => Some (mkExn ValueError
                          (lit "Missing required environment variable: AZURE_OPENAI_ENDPOINT")))
        (fun _ _ => inr [])
        (fun _ _ => inr [])
        (fun _ _ => None)
        (fun _ => lit "uuid")
        (fun _ => lit "T").

(** The completion service answers with a choice that has no content. *)
Definition NO_CONTENT_ENV : Env := scripted_env None [].

(** A row of the store, as decoded from JSON. *)
Definition row_1302_150 : json :=
  JDict [(lit "MEDCode", JInt 1302); (lit "Slot", JInt 150);
         (lit "Value", JStr (lit "19928"))].

(** The completion service answers with the fenced query; the store has one row. *)
Definition FENCED_ENV : Env := scripted_env (Some FENCED_SELECT) [row_1302_150].

(** [new_processor] after a successful [_ensure_initialized]. *)
Definition just_connected : World :=
  mkWorld true (Some Handle) (Some Handle) [CallCosmosSetup; CallOpenAISetup].

(** [new_processor] after the connection to the completion service failed. *)
Definition half_connected : World :=
  mkWorld false (Some Handle) None [CallCosmosSetup; CallOpenAISetup].

Definition BAD_LIMIT : gmap str str := {[ lit "limit" := lit "ten" ]}.

(** ** The health probe and the seeding at start-up *)

(** The dict [health_status] of [http_health_check]. *)
Record HealthStatus : Type := mkHealthStatus {
  health_status : str;
  health_cosmos_db : str;
  health_azure_openai : str;
  health_timestamp : str;
  health_service : str
}.

Inductive HealthBody : Type :=
  | HealthReport (report : HealthStatus)
  | HealthFailure (status error at_time : str).

Record HealthResponse : Type := mkHealthResponse {
  health_code : Z;
  health_body : HealthBody
}.

Definition HEALTHY : str := lit "healthy".

(** [a == b] on two texts *)
Definition str_eqb (a b : str) : bool := bool_decide (a = b).

Definition http_health_check (env : Env) : M HealthResponse :=
  try_except
    (cosmos_status <-
       try_except (get_sample_data env 1 ;;; ret HEALTHY)
                  (fun e => ret (lit "unhealthy: " ++ str_of_exn e)) ;;
     openai_status <-
       try_except (w <- get_world ;;
                   ret (match openai_client w with
                        | Some _ => HEALTHY
                        | None => lit "not initialized"
                        end))
                  (fun e => ret (lit "unhealthy: " ++ str_of_exn e)) ;;
     at_time <- now env ;;
     ret (mkHealthResponse 200
            (HealthReport
               (mkHealthStatus
                  (if str_eqb cosmos_status HEALTHY && str_eqb openai_status HEALTHY
                   then HEALTHY else lit "degraded")
                  cosmos_status openai_status at_time
                  (lit "medical-data-text-to-sql")))))
    (fun e =>
     at_time <- now env ;;
     ret (mkHealthResponse 500 (HealthFailure (lit "unhealthy") (str_of_exn e) at_time))).

(** One dict of [sample_records]. *)
Definition sample_record (t : Z * Z * string) : record :=
  list_to_map [(lit "MEDCode", JInt (fst (fst t))); (lit "Slot", JInt (snd (fst t)));
               (lit "Value", JStr (lit (snd t)))].

Definition triplet (medcode slot : Z) (value : string) : Z * Z * string :=
  (medcode, slot, value).

Definition SAMPLE_TRIPLETS : list (Z * Z * string) :=
  [ triplet 1302 150 "19928";
    triplet 1302 151 "Blood pressure systolic";
    triplet 1302 152 "120";
    triplet 1303 150 "Blood pressure diastolic";
    triplet 1303 151 "80";
    triplet 1304 150 "Heart rate";
    triplet 1304 151 "72";
    triplet 1305 150 "Temperature";
    triplet 1305 151 "98.6";
    triplet 1306 150 "Sodium level";
    triplet 1306 151 "142";
    triplet 1307 150 "Glucose";
    triplet 1307 151 "95" ].

Definition sample_records : list record := map sample_record SAMPLE_TRIPLETS.

(** [initialize_sample_data]: the timer function run on start-up. *)
Definition initialize_sample_data (env : Env) : M unit :=
  try_except
    (existing_data <- get_sample_data env 1 ;;
     match existing_data with
     | _ :: _ => ret tt
     | [] => upload_medical_records env sample_records ;;; ret tt
     end)
    (fun e => ret tt).

(** The prompts sent to the completion service among some calls. *)
Definition completion_prompts (cs : list Call) : list str :=
  omap (fun c => match c with CallCompletion p => Some p | _ => None end) cs.

(** MEDCode, Slot and Value of a stored document. *)
Definition triplet_of (d : Document) : json * json * str :=
  (doc_MEDCode d, doc_Slot d, doc_Value d).

(** What the store is to hold for a dict of [sample_records]. *)
Definition stored_triplet (t : Z * Z * string) : json * json * str :=
  (JInt (fst (fst t)), JInt (snd (fst t)), lit (snd t)).

(** A store that holds nothing and accepts everything; the rest as scripted. *)
Definition EMPTY_STORE_ENV : Env := scripted_env None [].

(** A store whose connection cannot be set up. *)
Definition COSMOS_DOWN_ENV : Env :=
  mkEnv (fun c => [c])
        (fun s => inl (mkExn ValueError (invalid_literal s)))
        (fun _ _ => inr (lit "value"))
        (fun _ => Some (mkExn ValueError
                          (lit "Missing required environment variable: COSMOS_ENDPOINT")))
        (fun _ => None)
        (fun _ _ => inr [])
        (fun _ _ => inr [])
        (fun _ _ => None)
        (fun _ => lit "uuid")
        (fun _ => lit "T").

(** ** Python operations on decoded JSON values *)

(** What a handler can see raised: an exception of the processor, or a
    TypeError of the interpreter. *)
Inductive raised : Type :=
  | Raised (e : exn)
  | RaisedTypeError (message : str).

(** [str(e)] *)
Definition str_of_raised (e : raised) : str :=
  match e with
  | Raised e => str_of_exn e
  | RaisedTypeError message => message
  end.

(** [type(v).__name__] *)
Definition type_name (v : json) : str :=
  match v with
  | JNull => lit "NoneType"
  | JBool _ => lit "bool"
  | JInt _ => lit "int"
  | JFloat _ => lit "float"
  | JStr _ => lit "str"
  | JList _ => lit "list"
  | JDict _ => lit "dict"
  end.

(** The dict whose items are [fields] (a key listed twice counts once). *)
Definition as_record (fields : list (str * json)) : record := list_to_map fields.

(** [bool(v)]: a float is false when it is plus or minus zero. *)
Definition truthy (v : json) : bool :=
  match v with
  | JNull => false
  | JBool b => b
  | JInt n => negb (n =? 0)%Z
  | JFloat bits => negb ((bits =? 0) || (bits =? 2 ^ 63))
  | JStr s => match s with [] => false | _ :: _ => true end
  | JList items => match items with [] => false | _ :: _ => true end
  | JDict fields => match fields with [] => false | _ :: _ => true end
  end.

(** [key in v] for a text [key] *)
Definition py_in (key : str) (v : json) : raised + bool :=
  match v with
  | JDict fields =>
      inr (match as_record fields !! key with Some _ => true | None => false end)
  | JList items =>
      inr (existsb (fun x => match x with JStr s => str_eqb s key | _ => false end) items)
  | JStr s => inr (occursb key s)
  | _ => inl (RaisedTypeError
                (lit "argument of type '" ++ type_name v ++ lit "' is not iterable"))
  end.

(** [v[key]] for a text [key] *)
Definition py_getitem (v : json) (key : str) : raised + json :=
  match v with
  | JDict fields =>
      match as_record fields !! key with
      | Some x => inr x
      | None => inl (Raised (mkExn KeyError (lit "'" ++ key ++ lit "'")))
      end
  | JStr _ => inl (RaisedTypeError (lit "string indices must be integers, not 'str'"))
  | JList _ => inl (RaisedTypeError (lit "list indices must be integers or slices, not str"))
  | _ => inl (RaisedTypeError (lit "'" ++ type_name v ++ lit "' object is not subscriptable"))
  end.

Definition no_attribute (v : json) (name : string) : raised :=
  Raised (mkExn AttributeError
            (lit "'" ++ type_name v ++ lit "' object has no attribute '" ++ lit name
             ++ lit "'")).

(** [v.get(key, default)] *)
Definition py_get (v : json) (key : str) (default : json) : raised + json :=
  match v with
  | JDict fields =>
      inr (match as_record fields !! key with Some x => x | None => default end)
  | _ => inl (no_attribute v "get")
  end.

(** [v.strip()] *)
Definition py_strip (v : json) : raised + str :=
  match v with
  | JStr s => inr (strip s)
  | _ => inl (no_attribute v "strip")
  end.

(** ** The handlers' computations *)

Definition Handler (A : Type) : Type := World -> (raised + A) * World.

Definition hret {A} (a : A) : Handler A := fun w => (inr a, w).

Definition hbind {A B} (m : Handler A) (k : A -> Handler B) : Handler B :=
  fun w => match m w with
           | (inl e, w') => (inl e, w')
           | (inr a, w') => k a w'
           end.

(** [try: m  except Exception as e: h e] *)
Definition htry_except {A} (m : Handler A) (h : raised -> Handler A) : Handler A :=
  fun w => match m w with
           | (inl e, w') => h e w'
           | (inr a, w') => (inr a, w')
           end.

(** A step that touches nothing. *)
Definition pure {A} (r : raised + A) : Handler A := fun w => (r, w).

(** A computation of the processor, inside a handler. *)
Definition lift {A} (m : M A) : Handler A :=
  fun w => match m w with
           | (inl e, w') => (inl (Raised e), w')
           | (inr a, w') => (inr a, w')
           end.

Notation "x <~ m ;; k" := (hbind m (fun x => k))
  (at level 100, m at next level, right associativity).

(** ** The text-to-SQL endpoints *)

Inductive Payload : Type :=
  | PayloadError (error : str)
  | PayloadInternalError (error : str) (ok : bool) (at_time : str)
  | PayloadOutcome (outcome : Outcome)
  | PayloadUpload (result : UploadResult).

Record Response : Type := mkResponse {
  response_status : Z;
  response_payload : Payload
}.

(** [not body or key not in body] *)
Definition field_is_missing (key : str) (body : json) : Handler bool :=
  if negb (truthy body) then hret true
  else present <~ pure (py_in key body) ;; hret (negb present).

(** [not query or not query.strip()] *)
Definition query_is_empty (query : json) : Handler bool :=
  if negb (truthy query) then hret true
  else stripped <~ pure (py_strip query) ;; hret (negb (truthy (JStr stripped))).

Definition internal_error (env : Env) (e : raised) : Handler Response :=
  at_time <~ lift (now env) ;;
  hret (mkResponse 500
          (PayloadInternalError (lit "Internal server error: " ++ str_of_raised e)
                                false at_time)).

(** [http_text_to_sql]; [get_json] is what [req.get_json()] returns or raises. *)
Definition http_text_to_sql (env : Env) (get_json : raised + json) : Handler Response :=
  htry_except
    (req_body <~ pure get_json ;;
     missing <~ field_is_missing (lit "query") req_body ;;
     if missing
     then hret (mkResponse 400 (PayloadError (lit "Missing 'query' field in request body")))
     else
       query <~ pure (py_getitem req_body (lit "query")) ;;
       empty <~ query_is_empty query ;;
       if empty
       then hret (mkResponse 400 (PayloadError (lit "Query cannot be empty")))
       else
         stripped <~ pure (py_strip query) ;;
         result <~ lift (process_natural_language_query env stripped) ;;
         hret (mkResponse (if success result then 200 else 500)%Z
                          (PayloadOutcome result)))
    (internal_error env).

(** What [mcp_text_to_sql] hands to [json.dumps]. *)
Inductive McpAnswer : Type :=
  | McpError (error : str) (ok : bool)
  | McpFailure (error : str) (ok : bool) (at_time : str)
  | McpResult (outcome : Outcome) (summary : option str).

(** [record.get(key, 'N/A')] inside an f-string; a row that is no object has
    no [get]. *)
Definition format_field (env : Env) (r : json) (key : str) : Handler str :=
  value <~ pure (py_get r key (JStr (lit "N/A"))) ;;
  lift (py_str env value).

(** One turn of the loop over [result['results'][:5]]. *)
Definition summary_line (env : Env) (i : nat) (r : json) : Handler str :=
  medcode <~ format_field env r (lit "MEDCode") ;;
  slot <~ format_field env r (lit "Slot") ;;
  value <~ format_field env r (lit "Value") ;;
  hret (lit "Record " ++ str_of_Z (Z.of_nat i + 1) ++ lit ": MEDCode=" ++ medcode
        ++ lit ", " ++ lit "Slot=" ++ slot ++ lit ", " ++ lit "Value=" ++ value ++ [NL]).

Fixpoint summary_lines (env : Env) (i : nat) (rows : list json) : Handler str :=
  match rows with
  | [] => hret []
  | r :: rest =>
      line <~ summary_line env i r ;;
      more <~ summary_lines env (S i) rest ;;
      hret (line ++ more)
  end.

(** The three lines every summary begins with. *)
Definition summary_head (result : Outcome) : str :=
  lit "Query: " ++ natural_language_query result ++ [NL]
  ++ lit "Generated SQL: "
  ++ match generated_sql result with Some sql => sql | None => lit "None" end ++ [NL]
  ++ lit "Results: " ++ str_of_Z (row_count result) ++ lit " records found" ++ [NL; NL].

(** The summary of a successful result. *)
Definition mcp_summary (env : Env) (result : Outcome) : Handler str :=
  let head := summary_head result in
  if (0 <? row_count result)%Z
  then
    rows <~ pure (match results result with
                  | Some rows => inr rows
                  | None => inl (RaisedTypeError (lit "'NoneType' object is not subscriptable"))
                  end) ;;
    lines <~ summary_lines env 0 (take 5 rows) ;;
    hret (head ++ lit "Sample results:" ++ [NL] ++ lines
          ++ (if (5 <? row_count result)%Z
              then lit "... and " ++ str_of_Z (row_count result - 5) ++ lit " more records"
                   ++ [NL]
              else []))
  else hret (head ++ lit "No matching records found." ++ [NL]).

(** [mcp_text_to_sql]; [loads] is what [json.loads(req)] returns or raises. *)
Definition mcp_text_to_sql (env : Env) (loads : raised + json) : Handler McpAnswer :=
  htry_except
    (req_data <~ pure loads ;;
     args <~ pure (py_get req_data (lit "arguments") (JDict [])) ;;
     query <~ pure (py_get args (lit "query") (JStr [])) ;;
     query <~ pure (py_strip query) ;;
     if negb (truthy (JStr query))
     then hret (McpError (lit "Query parameter is required and cannot be empty") false)
     else
       result <~ lift (process_natural_language_query env query) ;;
       if success result
       then summary <~ mcp_summary env result ;; hret (McpResult result (Some summary))
       else hret (McpResult result None))
    (fun e =>
     at_time <~ lift (now env) ;;
     hret (McpFailure (lit "Error processing query: " ++ str_of_raised e) false at_time)).

(** A request body [{"query": q}] and the tool request with the same query. *)
Definition http_body (q : json) : json := JDict [(lit "query", q)].

Definition mcp_request (q : json) : json :=
  JDict [(lit "arguments", JDict [(lit "query", q)])].

(** What a response of [http_text_to_sql] can be: the status and body go
    together, and a 400 leaves the processor as it was. *)
Definition text_to_sql_response (w : World) (resp : Response) (w' : World) : Prop :=
  (response_status resp = 200%Z
   /\ exists o, response_payload resp = PayloadOutcome o /\ success o = true)
  \/ (response_status resp = 400%Z /\ w' = w
      /\ exists m, response_payload resp = PayloadError m)
  \/ (response_status resp = 500%Z
      /\ ((exists o, response_payload resp = PayloadOutcome o /\ success o = false)
          \/ exists m t, response_payload resp = PayloadInternalError m false t)).

(** From [w] to [w'] at most [n] calls were made, each of them a [str(v)]. *)
Definition only_str_calls (n : nat) (w w' : World) : Prop :=
  exists extra,
    calls w' = calls w ++ extra
    /\ Forall (fun c => exists v, c = CallStr v) extra
    /\ (length extra <= n)%nat.

(** ** The upload endpoint *)

(** [all(field in record for field in fields)], from the left. *)
Fixpoint all_in (fields : list str) (x : json) : raised + bool :=
  match fields with
  | [] => inr true
  | field :: rest =>
      match py_in field x with
      | inl e => inl e
      | inr false => inr false
      | inr true => all_in rest x
      end
  end.

Definition raised_record_error (i : nat) (e : raised) : str :=
  lit "Record " ++ str_of_Z (Z.of_nat i) ++ lit ": " ++ str_of_raised e.

(** One turn of the loop of [upload_medical_records] on an element of the
    list that need not be a dict. *)
Definition upload_item (env : Env) (i : nat) (x : json) (acc : Z * list str)
  : Handler (Z * list str) :=
  htry_except
    (present <~ pure (all_in REQUIRED_FIELDS x) ;;
     if negb present
     then hret (fst acc, snd acc ++ [missing_fields_error i])
     else
       id <~ lift (call_total CallUuid4 (uuid4 env)) ;;
       medcode <~ pure (py_getitem x (lit "MEDCode")) ;;
       slot <~ pure (py_getitem x (lit "Slot")) ;;
       value <~ pure (py_getitem x (lit "Value")) ;;
       value <~ lift (py_str env value) ;;
       at_time <~ lift (now env) ;;
       let document := mkDocument id medcode slot value at_time in
       sent <~ lift (call_unit (CallCreateItem document)
                               (fun h => create_item env h document)) ;;
       hret ((fst acc + 1)%Z, snd acc))
    (fun e => hret (fst acc, snd acc ++ [raised_record_error i e])).

Fixpoint upload_items (env : Env) (i : nat) (records : list json) (acc : Z * list str)
  : Handler (Z * list str) :=
  match records with
  | [] => hret acc
  | x :: rest => acc' <~ upload_item env i x acc ;; upload_items env (S i) rest acc'
  end.

(** [upload_medical_records] as the endpoint calls it: on the elements of the
    JSON array, whatever they are. *)
Definition upload_medical_records_any (env : Env) (records : list json)
  : Handler UploadResult :=
  connected <~ lift (_ensure_initialized env) ;;
  w <~ lift get_world ;;
  match container w with
  | None =>
      pure (inl (Raised (mkExn RuntimeError
                           (lit "Cosmos DB container not properly initialized"))))
  | Some _ =>
      acc <~ upload_items env 0 records (0%Z, []) ;;
      at_time <~ lift (now env) ;;
      hret (mkUploadResult (fst acc) (Z.of_nat (length records)) (snd acc)
                           (0 <? fst acc)%Z at_time)
  end.

(** [http_upload_medical_data]; [get_json] is what [req.get_json()] returns or
    raises. *)
Definition http_upload_medical_data (env : Env) (get_json : raised + json)
  : Handler Response :=
  htry_except
    (req_body <~ pure get_json ;;
     missing <~ field_is_missing (lit "records") req_body ;;
     if missing
     then hret (mkResponse 400
                  (PayloadError (lit "Missing 'records' field in request body")))
     else
       records <~ pure (py_getitem req_body (lit "records")) ;;
       match records with
       | JList items =>
           result <~ upload_medical_records_any env items ;;
           hret (mkResponse 200 (PayloadUpload result))
       | _ => hret (mkResponse 400 (PayloadError (lit "'records' must be an array")))
       end)
    (internal_error env).

(** A value that is not a dict. *)
Definition is_dict (x : json) : bool :=
  match x with JDict _ => true | _ => false end.



(** ** Records that cannot be uploaded *)

(** The record fails its validation or its upload: a required field is
    missing, or [str] raises on its value, or the store refuses every document
    built from it. *)
Definition upload_fails (env : Env) (r : record) : Prop :=
  has_required_fields r = false
  \/ (exists v, r !! lit "Value" = Some v
               /\ forall w, exists e, fst (py_str env v w) = inl e)
  \/ (forall h d, built_from env r d -> create_item env h d <> None).

(** A store that refuses every document; the rest as scripted. *)
Definition REFUSING_ENV : Env :=
  mkEnv (fun c => [c])
        (fun s => inl (mkExn ValueError (invalid_literal s)))
        (fun _ _ => inr (lit "value"))
        (fun _ => None)
        (fun _ => None)
        (fun _ _ => inr [])
        (fun _ _ => inr [])
        (fun _ _ => Some (mkExn ServiceError (lit "Conflict")))
        (fun _ => lit "uuid")
        (fun _ => lit "T").

(** A complete record and one without its value. *)
Definition batch_refused_and_missing : list record := [record_1302_150; record_no_value].

(** The store holds two numbers, as a query selecting values returns them. *)
Definition VALUES_ENV : Env := scripted_env (Some SELECT_1302) [JInt 1302; JInt 1303].

(** ** Facts about text *)

Lemma lstrip_head s : head_is_text (lstrip s).
Proof.
  induction s as [|c r IH]; simpl; [exact I|].
  destruct (isspace c) eqn:E; [exact IH | simpl; exact E].
Qed.

Lemma lstrip_fixed s : head_is_text s -> lstrip s = s.
Proof. destruct s as [|c r]; simpl; [reflexivity|]. intros ->. reflexivity. Qed.

Lemma lstrip_suffix s : exists a, s = a ++ lstrip s.
Proof.
  induction s as [|c r [a IH]]; simpl.
  - exists []. reflexivity.
  - destruct (isspace c).
    + exists (c :: a). simpl. f_equal. exact IH.
    + exists []. reflexivity.
Qed.

Lemma rstrip_prefix s : exists b, s = rstrip s ++ b.
Proof.
  unfold rstrip. destruct (lstrip_suffix (rev s)) as [a Ha].
  exists (rev a). rewrite <- rev_app_distr, <- Ha, rev_involutive. reflexivity.
Qed.

Lemma rstrip_last s : last_is_text (rstrip s).
Proof. unfold last_is_text, rstrip. rewrite rev_involutive. apply lstrip_head. Qed.

Lemma rstrip_fixed s : last_is_text s -> rstrip s = s.
Proof.
  unfold last_is_text, rstrip. intros H.
  rewrite (lstrip_fixed _ H). apply rev_involutive.
Qed.

Lemma rstrip_head s : head_is_text s -> head_is_text (rstrip s).
Proof.
  intros H. destruct (rstrip_prefix s) as [b Hb].
  destruct (rstrip s) as [|c r]; [exact I|].
  rewrite Hb in H. exact H.
Qed.

Lemma strip_head s : head_is_text (strip s).
Proof. apply rstrip_head, lstrip_head. Qed.

Lemma strip_last s : last_is_text (strip s).
Proof. apply rstrip_last. Qed.

Lemma strip_fixed s : head_is_text s -> last_is_text s -> strip s = s.
Proof.
  intros Hh Hl. unfold strip. rewrite (lstrip_fixed _ Hh). apply rstrip_fixed, Hl.
Qed.

Lemma strip_strip s : strip (strip s) = strip s.
Proof. apply strip_fixed; [apply strip_head | apply strip_last]. Qed.

Lemma strip_piece s : exists a b, s = a ++ strip s ++ b.
Proof.
  destruct (lstrip_suffix s) as [a Ha].
  destruct (rstrip_prefix (lstrip s)) as [b Hb].
  exists a, b. unfold strip. rewrite <- Hb. exact Ha.
Qed.

Lemma Occurs_strip t s : Occurs t (strip s) -> Occurs t s.
Proof.
  intros [a [b H]]. destruct (strip_piece s) as [a' [b' Hs]].
  exists (a' ++ a), (b ++ b'). rewrite Hs, H.
  repeat rewrite <- app_assoc. reflexivity.
Qed.

(** *** Substitution *)

Lemma startswith_app s p q : startswith s (p ++ q) = true -> startswith s p = true.
Proof.
  revert s. induction p as [|a p IH]; intros s H; [destruct s; reflexivity|].
  destruct s as [|c s]; simpl in *; [discriminate|].
  apply andb_true_iff in H as [H1 H2]. rewrite H1. simpl. apply IH, H2.
Qed.

Lemma startswith_spec s p : startswith s p = true <-> exists r, s = p ++ r.
Proof.
  revert s. induction p as [|a p IH]; intros s.
  - destruct s; simpl; split; eauto.
  - destruct s as [|c s]; simpl.
    + split; [discriminate | intros [r Hr]; discriminate].
    + rewrite andb_true_iff, IH, N.eqb_eq. split.
      * intros [-> [r ->]]. eauto.
      * intros [r Hr]. injection Hr as -> ->. eauto.
Qed.

Lemma sub_scan_skip fence k s :
  sub_scan fence k s = re_sub_remove fence (drop k s).
Proof.
  revert s. induction k as [|k IH]; intros s; [reflexivity|].
  destruct s as [|c r]; [reflexivity|]. simpl. apply IH.
Qed.

(** The scan, as the regular-expression engine is described: a match at the
    head is dropped and the scan resumes behind it; otherwise one character
    is copied. *)
Lemma re_sub_remove_match fence s n :
  match_fence fence s = Some (S n) ->
  re_sub_remove fence s = re_sub_remove fence (drop (S n) s).
Proof.
  intros H. destruct s as [|c r].
  - unfold match_fence in H. destruct fence; simpl in H; discriminate.
  - unfold re_sub_remove at 1. simpl. rewrite H. apply sub_scan_skip.
Qed.

Lemma re_sub_remove_copy fence c r :
  fence <> [] -> match_fence fence (c :: r) = None ->
  re_sub_remove fence (c :: r) = c :: re_sub_remove fence r.
Proof. intros _ H. unfold re_sub_remove. simpl. rewrite H. reflexivity. Qed.

Lemma match_fence_none fence s :
  startswith s fence = false -> match_fence fence s = None.
Proof.
  intros H. unfold match_fence. rewrite H.
  destruct (startswith s (fence ++ [NL])) eqn:E; [|reflexivity].
  apply startswith_app in E. congruence.
Qed.

Lemma match_fence_some fence s n :
  match_fence fence s = Some n -> startswith s fence = true /\ (length fence <= n)%nat.
Proof.
  unfold match_fence. destruct (startswith s (fence ++ [NL])) eqn:E.
  - intros [= <-]. split; [eapply startswith_app, E | lia].
  - destruct (startswith s fence); [intros [= <-]; split; [reflexivity|lia] | discriminate].
Qed.

Lemma FENCE_eq : FENCE = [BACKTICK; BACKTICK; BACKTICK].
Proof. reflexivity. Qed.

Lemma FENCE_SQL_eq : FENCE_SQL = FENCE ++ lit "sql".
Proof. reflexivity. Qed.

Lemma re_sub_fence_copy c r :
  startswith (c :: r) FENCE = false ->
  re_sub_remove FENCE (c :: r) = c :: re_sub_remove FENCE r.
Proof.
  intros H. apply re_sub_remove_copy; [discriminate|]. apply match_fence_none, H.
Qed.

Lemma startswith_cons c s a p :
  startswith (c :: s) (a :: p) = (c =? a) && startswith s p.
Proof. reflexivity. Qed.

Lemma startswith_nil s : startswith s [] = true.
Proof. destruct s; reflexivity. Qed.

Lemma startswith_nil_l a p : startswith [] (a :: p) = false.
Proof. reflexivity. Qed.

Lemma startswith_fence c s :
  startswith (c :: s) FENCE = (c =? BACKTICK) && startswith s [BACKTICK; BACKTICK].
Proof. reflexivity. Qed.

(** Removing the fences never brings a fence to the head of the text. *)
Lemma re_sub_fence_head s :
  startswith s FENCE = false -> startswith (re_sub_remove FENCE s) FENCE = false.
Proof.
  destruct s as [|c r]; [reflexivity|]. intros H.
  rewrite (re_sub_fence_copy _ _ H).
  rewrite startswith_fence in *.
  destruct (c =? BACKTICK); [cbn [andb] in *|reflexivity].
  destruct r as [|d r]; [reflexivity|].
  assert (Hr : startswith (d :: r) FENCE = false).
  { rewrite startswith_fence. rewrite startswith_cons in H.
    destruct (d =? BACKTICK); [cbn [andb] in *|reflexivity].
    destruct r as [|e r]; [reflexivity|].
    rewrite startswith_cons in *.
    destruct (e =? BACKTICK); [rewrite startswith_nil in H; discriminate|reflexivity]. }
  rewrite (re_sub_fence_copy _ _ Hr). rewrite startswith_cons in *.
  destruct (d =? BACKTICK); [cbn [andb] in *|reflexivity].
  destruct r as [|e r]; [reflexivity|].
  rewrite startswith_cons in H.
  destruct (e =? BACKTICK) eqn:Ee; [rewrite startswith_nil in H; discriminate|].
  assert (Hr' : startswith (e :: r) FENCE = false).
  { rewrite startswith_fence, Ee. reflexivity. }
  rewrite (re_sub_fence_copy _ _ Hr'), startswith_cons, Ee. reflexivity.
Qed.

Lemma re_sub_fence_clean_len n : forall s,
  (length s <= n)%nat -> ~ Occurs FENCE (re_sub_remove FENCE s).
Proof.
  induction n as [|n IH]; intros s Hn.
  - destruct s; [|simpl in Hn; lia]. intros [a [b H]].
    destruct a; discriminate.
  - destruct (match_fence FENCE s) as [k|] eqn:E.
    + destruct (match_fence_some _ _ _ E) as [Hs Hk].
      destruct k as [|k]; [simpl in Hk; lia|].
      rewrite (re_sub_remove_match _ _ _ E). apply IH.
      destruct s as [|c r]; [discriminate|].
      simpl. rewrite length_drop. simpl in Hn. lia.
    + destruct s as [|c r]; [intros [a [b H]]; destruct a; discriminate|].
      assert (Hs : startswith (c :: r) FENCE = false).
      { unfold match_fence in E.
        destruct (startswith (c :: r) (FENCE ++ [NL])); [discriminate|].
        destruct (startswith (c :: r) FENCE); [discriminate|reflexivity]. }
      pose proof (re_sub_fence_head _ Hs) as Hh.
      rewrite (re_sub_fence_copy _ _ Hs) in *.
      intros [a [b H]]. destruct a as [|a0 a].
      * rewrite app_nil_l in H.
        assert (Ht : startswith (c :: re_sub_remove FENCE r) FENCE = true).
        { apply startswith_spec. exists b. exact H. }
        congruence.
      * rewrite <- app_comm_cons in H. injection H as _ H.
        apply (IH r); [simpl in Hn; lia|]. exists a, b. exact H.
Qed.

Lemma re_sub_fence_clean s : ~ Occurs FENCE (re_sub_remove FENCE s).
Proof. apply (re_sub_fence_clean_len (length s)). lia. Qed.

Lemma re_sub_remove_absent fence s :
  ~ Occurs fence s -> re_sub_remove fence s = s.
Proof.
  induction s as [|c r IH]; intros H; [reflexivity|].
  assert (Hs : startswith (c :: r) fence = false).
  { destruct (startswith (c :: r) fence) eqn:E; [|reflexivity].
    apply startswith_spec in E as [t Ht]. exfalso. apply H.
    exists [], t. exact Ht. }
  unfold re_sub_remove. simpl. rewrite (match_fence_none _ _ Hs).
  f_equal. apply IH. intros [a [b Hab]]. apply H.
  exists (c :: a), b. simpl. f_equal. exact Hab.
Qed.

Lemma Occurs_fence_sql s : Occurs FENCE_SQL s -> Occurs FENCE s.
Proof.
  intros [a [b H]]. exists a, (lit "sql" ++ b).
  rewrite H, FENCE_SQL_eq, <- app_assoc. reflexivity.
Qed.

Lemma sanitize_clean s : ~ Occurs FENCE (sanitize s).
Proof.
  unfold sanitize. intros H. apply Occurs_strip in H.
  exact (re_sub_fence_clean _ H).
Qed.

(** C5. The output sanitizer is idempotent: cleaning an already cleaned
    completion text leaves it unchanged, for every candidate text. *)
Theorem sanitize_idempotent (x : str) : sanitize (sanitize x) = sanitize x.
Proof.
  pose proof (sanitize_clean x) as Hc.
  assert (Hf : strip (sanitize x) = sanitize x).
  { unfold sanitize. apply strip_strip. }
  unfold sanitize at 1. cbv zeta. rewrite Hf.
  rewrite (re_sub_remove_absent FENCE_SQL).
  - rewrite (re_sub_remove_absent FENCE _ Hc). exact Hf.
  - intros H. apply Hc, Occurs_fence_sql, H.
Qed.

(** C6. The fenced completion text is cleaned to exactly the bare query: no
    fence marker, no language tag, no surrounding white space. *)
Theorem sanitize_fenced_select :
  sanitize FENCED_SELECT = lit "SELECT * FROM c WHERE c.MEDCode = 1302"
  /\ ~ Occurs FENCE (sanitize FENCED_SELECT)
  /\ strip (sanitize FENCED_SELECT) = sanitize FENCED_SELECT.
Proof.
  split; [vm_compute; reflexivity|]. split.
  - apply sanitize_clean.
  - unfold sanitize. apply strip_strip.
Qed.

(** ** The read-only guard *)

Lemma lstrip_app_text x y :
  forallb is_text y = true -> lstrip (x ++ y) = lstrip x ++ y.
Proof.
  intros Hy. induction x as [|c x IH]; simpl.
  - destruct y as [|d y]; [reflexivity|]. simpl in *.
    apply andb_true_iff in Hy as [Hd _]. unfold is_text in Hd.
    destruct (isspace d); [discriminate|reflexivity].
  - destruct (isspace c); [exact IH|reflexivity].
Qed.

Lemma rstrip_app_text a b :
  forallb is_text a = true -> rstrip (a ++ b) = a ++ rstrip b.
Proof.
  intros Ha. unfold rstrip. rewrite rev_app_distr, lstrip_app_text.
  - rewrite rev_app_distr, rev_involutive. reflexivity.
  - rewrite forallb_forall in *. intros c Hc. apply Ha, in_rev, Hc.
Qed.

Lemma take_token_text s : forallb is_text (take_token s) = true.
Proof.
  induction s as [|c r IH]; simpl; [reflexivity|].
  destruct (isspace c) eqn:E; simpl; [reflexivity|].
  unfold is_text at 1. rewrite E. exact IH.
Qed.

Lemma take_token_prefix s : exists b, s = take_token s ++ b.
Proof.
  induction s as [|c r [b IH]]; simpl; [exists []; reflexivity|].
  destruct (isspace c).
  - exists (c :: r). reflexivity.
  - exists b. simpl. f_equal. exact IH.
Qed.

(** The stripped text begins with the leading token. *)
Lemma strip_leading_token s : exists rest, strip s = leading_token s ++ rest.
Proof.
  unfold strip, leading_token.
  destruct (take_token_prefix (lstrip s)) as [b Hb].
  exists (rstrip b). rewrite Hb at 1.
  apply rstrip_app_text, take_token_text.
Qed.

Lemma upper_app env a b : upper env (a ++ b) = upper env a ++ upper env b.
Proof. unfold upper. apply flat_map_app. Qed.

Lemma ensure_initialized_connected env w :
  connected w -> _ensure_initialized env w = (inr tt, w).
Proof.
  intros [Hi _]. unfold _ensure_initialized, bind, get_world. rewrite Hi. reflexivity.
Qed.

(** On a connected processor [execute_query] is the guard followed by the
    one call to the store. *)
Lemma execute_query_connected env sql w :
  connected w ->
  execute_query env sql w =
  if read_only_guard env sql
  then (query_items env (calls w) sql, record_call (CallQueryItems sql) w)
  else (inl (mkExn ValueError (lit "Only SELECT queries are allowed")), w).
Proof.
  intros Hc. unfold execute_query, bind at 1.
  rewrite (ensure_initialized_connected env w Hc).
  unfold bind, get_world. destruct Hc as [_ [-> _]].
  destruct (read_only_guard env sql); reflexivity.
Qed.

(** C1 (amended). The guard is a prefix test: it succeeds exactly when the
    query, stripped of surrounding white space and put in upper case, begins
    with the letters SELECT.  A leading token that is SELECT in any case is
    therefore accepted; on a connected processor an accepted query goes to the
    store, and a rejected one raises ValueError with no call made. *)
Theorem read_only_guard_is_prefix_test (env : Env) (s : str) :
  (read_only_guard env s = true <-> exists rest, upper env (strip s) = SELECT ++ rest)
  /\ (leading_token_is_select env s = true -> read_only_guard env s = true)
  /\ (forall w, connected w ->
      (read_only_guard env s = true ->
       execute_query env s w
       = (query_items env (calls w) s, record_call (CallQueryItems s) w))
      /\ (read_only_guard env s = false ->
          execute_query env s w
          = (inl (mkExn ValueError (lit "Only SELECT queries are allowed")), w))).
Proof.
  split; [apply startswith_spec|]. split.
  - unfold leading_token_is_select. intros H. apply bool_decide_eq_true in H.
    unfold read_only_guard. apply startswith_spec.
    destruct (strip_leading_token s) as [rest Hr].
    exists (upper env rest). rewrite Hr, upper_app, H. reflexivity.
  - intros w Hc. rewrite (execute_query_connected env s w Hc).
    split; intros ->; reflexivity.
Qed.

(** C1, as stated, fails: a query whose leading token is SELECTED passes the
    guard although that token is not the keyword. *)
Lemma guard_accepts_selected :
  read_only_guard (scripted_env None []) SELECTED_QUERY = true
  /\ leading_token_is_select (scripted_env None []) SELECTED_QUERY = false
  /\ store_queries
       (calls (snd (process_natural_language_query
                      (scripted_env (Some SELECTED_QUERY) []) SHOW_1302 new_processor)))
     = [SELECTED_QUERY].
Proof. vm_compute. repeat split; reflexivity. Qed.

(** ** The pipeline *)

Lemma store_queries_app a b :
  store_queries (a ++ b) = store_queries a ++ store_queries b.
Proof. apply omap_app. Qed.

Lemma store_writes_app a b :
  store_writes (a ++ b) = store_writes a ++ store_writes b.
Proof. apply omap_app. Qed.

Lemma same_store_refl w : same_store w w.
Proof. split; reflexivity. Qed.

Lemma same_store_trans w1 w2 w3 :
  same_store w1 w2 -> same_store w2 w3 -> same_store w1 w3.
Proof. intros [A B] [C D]. split; congruence. Qed.

Lemma same_store_record c w :
  (forall q, c <> CallQueryItems q) -> (forall d, c <> CallCreateItem d) ->
  same_store w (record_call c w).
Proof.
  intros Hq Hd. unfold same_store, record_call. simpl.
  rewrite store_queries_app, store_writes_app.
  destruct c; simpl; try rewrite !app_nil_r; try (split; reflexivity).
  - exfalso. eapply Hq. reflexivity.
  - exfalso. eapply Hd. reflexivity.
Qed.

Lemma process_cases env query w :
  process_natural_language_query env query w =
  match generate_sql_query env query w with
  | (inl e, w1) => failed_outcome env query e w1
  | (inr sql, w1) =>
      match execute_query env sql w1 with
      | (inl e, w2) => failed_outcome env query e w2
      | (inr rows, w2) =>
          (inr (mkOutcome query (Some sql) (Some rows) (Z.of_nat (length rows))
                          true None (utcnow env (calls w2))),
           record_call CallUtcnow w2)
      end
  end.
Proof.
  unfold process_natural_language_query, try_except, bind at 1.
  destruct (generate_sql_query env query w) as [[e|sql] w1]; [reflexivity|].
  unfold bind at 1.
  destruct (execute_query env sql w1) as [[e|rows] w2]; reflexivity.
Qed.

(** [_ensure_initialized], case by case. *)
Lemma ensure_initialized_eq env w :
  _ensure_initialized env w =
  if _initialized w then (inr tt, w)
  else
    match cosmos_setup env (calls w) with
    | Some e => (inl e, record_call CallCosmosSetup w)
    | None =>
        match openai_setup env (calls w ++ [CallCosmosSetup]) with
        | Some e =>
            (inl e, mkWorld false (Some Handle) (openai_client w)
                            ((calls w ++ [CallCosmosSetup]) ++ [CallOpenAISetup]))
        | None =>
            (inr tt, mkWorld true (Some Handle) (Some Handle)
                             ((calls w ++ [CallCosmosSetup]) ++ [CallOpenAISetup]))
        end
    end.
Proof.
  unfold _ensure_initialized, bind at 1, get_world.
  destruct (_initialized w) eqn:Hi; [reflexivity|].
  unfold _setup_cosmos_client, _setup_openai_client, call_unit, call, bind,
    set_container, set_openai_client, set_initialized, record_call. simpl.
  destruct (cosmos_setup env (calls w)); [reflexivity|]. simpl.
  destruct (openai_setup env (calls w ++ [CallCosmosSetup])); simpl;
    rewrite ?Hi; reflexivity.
Qed.

Lemma ensure_initialized_effect env w :
  same_store w (snd (_ensure_initialized env w))
  /\ (wf_world w ->
      wf_world (snd (_ensure_initialized env w))
      /\ (fst (_ensure_initialized env w) = inr tt ->
          connected (snd (_ensure_initialized env w)))).
Proof.
  rewrite ensure_initialized_eq.
  destruct (_initialized w) eqn:Hi.
  - simpl. split; [apply same_store_refl|]. intros Hw. split; [exact Hw|].
    intros _. destruct (Hw Hi) as [Hc Ho]. repeat split; assumption.
  - destruct (cosmos_setup env (calls w)) as [e|]; simpl.
    { split; [apply same_store_record; discriminate|].
      intros _. split; [|discriminate]. intros H. simpl in H. congruence. }
    destruct (openai_setup env (calls w ++ [CallCosmosSetup])) as [e|]; simpl.
    { split.
      - unfold same_store. simpl. rewrite !store_queries_app, !store_writes_app.
        simpl. rewrite !app_nil_r. split; reflexivity.
      - intros _. split; [|discriminate]. intros H. simpl in H. congruence. }
    split.
    + unfold same_store. simpl. rewrite !store_queries_app, !store_writes_app.
      simpl. rewrite !app_nil_r. split; reflexivity.
    + intros _. split; [intros _; split; reflexivity|].
      intros _. repeat split; reflexivity.
Qed.

(** Generating the query makes no call to the store, and a generated query
    comes out of a connected processor. *)
Lemma generate_sql_query_effect env query w r w1 :
  generate_sql_query env query w = (r, w1) ->
  same_store w w1
  /\ (wf_world w -> wf_world w1 /\ forall sql, r = inr sql -> connected w1).
Proof.
  unfold generate_sql_query, bind at 1.
  destruct (ensure_initialized_effect env w) as [Hs Hw].
  destruct (_ensure_initialized env w) as [[e|[]] w0]; simpl in Hs, Hw.
  - intros [= <- <-]. split; [exact Hs|]. intros H.
    destruct (Hw H) as [Hw0 _]. split; [exact Hw0|discriminate].
  - unfold bind at 1, get_world.
    destruct (openai_client w0) eqn:Ho.
    + unfold bind at 1, call.
      destruct (chat_completions_create env (calls w0) (system_message query))
        as [e|choices].
      * intros [= <- <-]. split.
        { eapply same_store_trans; [exact Hs|]. apply same_store_record; discriminate. }
        intros H. destruct (Hw H) as [Hw0 _]. split; [exact Hw0|discriminate].
      * assert (Hrec : same_store w (record_call (CallCompletion (system_message query)) w0)).
        { eapply same_store_trans; [exact Hs|]. apply same_store_record; discriminate. }
        unfold bind, first_choice_content.
        destruct choices as [|[content|] rest]; intros [= <- <-];
          (split; [exact Hrec|]); intros H; destruct (Hw H) as [Hw0 Hc];
          (split; [exact Hw0|]); try discriminate.
        intros sql _. exact (Hc eq_refl).
    + intros [= <- <-]. split; [exact Hs|]. intros H.
      destruct (Hw H) as [Hw0 _]. split; [exact Hw0|discriminate].
Qed.

(** C2 (amended). When the query was generated and its execution fails, by the
    guard or in the store, the outcome is a failure with no rows, a row count
    of 0, the error's text, and no generated query text: the handler sets
    [generated_sql] to [None] although the cleaned text existed. *)
Theorem failure_after_generation_drops_sql
  (env : Env) (query : str) (w : World) (sql : str) (w1 : World) (e : exn) (w2 : World) :
  generate_sql_query env query w = (inr sql, w1) ->
  execute_query env sql w1 = (inl e, w2) ->
  exists o w3,
    process_natural_language_query env query w = (inr o, w3)
    /\ success o = false /\ results o = None /\ row_count o = 0%Z
    /\ generated_sql o = None /\ error o = Some (str_of_exn e).
Proof.
  intros Hg He. rewrite process_cases, Hg, He. unfold failed_outcome.
  eexists _, _. split; [reflexivity|]. repeat split.
Qed.


(** C4. The pipeline always returns an outcome, and the outcome satisfies both
    invariants: it is a success exactly when the query text is present, the
    error is absent and the row count is the number of rows; a failure has no
    rows and a row count of 0. *)
Theorem outcome_invariants (env : Env) (query : str) (w : World) :
  exists o w',
    process_natural_language_query env query w = (inr o, w')
    /\ (success o = true <->
        is_Some (generated_sql o) /\ error o = None
        /\ exists rows, results o = Some rows /\ row_count o = Z.of_nat (length rows))
    /\ (success o = false -> results o = None /\ row_count o = 0%Z).
Proof.
  rewrite process_cases. unfold failed_outcome.
  destruct (generate_sql_query env query w) as [[e|sql] w1].
  - eexists _, _. split; [reflexivity|]. simpl. split; [|tauto].
    split; [discriminate|]. intros [[x Hx] _]. discriminate.
  - destruct (execute_query env sql w1) as [[e|rows] w2].
    + eexists _, _. split; [reflexivity|]. simpl. split; [|tauto].
      split; [discriminate|]. intros [[x Hx] _]. discriminate.
    + eexists _, _. split; [reflexivity|]. simpl. split; [|discriminate].
      split; [|reflexivity]. intros _. repeat split; eauto.
Qed.

(** ** The sample-data endpoint *)

Lemma get_sample_data_connected env limit w :
  connected w ->
  get_sample_data env limit w
  = (query_items env (calls w) (sample_query limit),
     record_call (CallQueryItems (sample_query limit)) w).
Proof.
  intros Hc. unfold get_sample_data, bind at 1.
  rewrite (ensure_initialized_connected env w Hc).
  unfold bind, get_world. destruct Hc as [_ [-> _]]. reflexivity.
Qed.

Lemma http_get_sample_data_queries env params N w :
  requested_limit env params = inr N -> connected w ->
  store_queries (calls (snd (http_get_sample_data env params w)))
  = store_queries (calls w) ++ [sample_query (clamp_limit N)].
Proof.
  unfold requested_limit. intros HN Hc.
  unfold http_get_sample_data, try_except, bind at 1. rewrite HN.
  unfold bind at 1. rewrite (get_sample_data_connected env _ w Hc).
  destruct (query_items env (calls w) (sample_query (clamp_limit N))) as [e|rows];
    unfold bind, now, call_total, call, ret; simpl;
    rewrite !store_queries_app; simpl; rewrite app_nil_r; reflexivity.
Qed.

(** C7. The limit handed to the sample fetch is the requested one clamped to
    the interval from 1 to 100: 0 gives 1, 1000 gives 100, and with no limit
    in the request the value is 10. The query sent to the store carries the
    clamped limit. *)
Theorem sample_limit_is_clamped (env : Env) :
  (forall N : Z, (1 <= clamp_limit N <= 100)%Z
                 /\ clamp_limit N
                    = (if (N <? 1)%Z then 1 else if (100 <? N)%Z then 100 else N)%Z)
  /\ clamp_limit 0 = 1%Z
  /\ clamp_limit 1000 = 100%Z
  /\ (forall params : gmap str str,
        params !! lit "limit" = None ->
        requested_limit env params = inr 10%Z /\ clamp_limit 10 = 10%Z)
  /\ (forall (params : gmap str str) (N : Z) (w : World),
        requested_limit env params = inr N -> connected w ->
        store_queries (calls (snd (http_get_sample_data env params w)))
        = store_queries (calls w) ++ [sample_query (clamp_limit N)]).
Proof.
  split.
  { intros N. unfold clamp_limit. split; [lia|].
    destruct (Z.ltb_spec N 1); [lia|]. destruct (Z.ltb_spec 100 N); lia. }
  split; [reflexivity|]. split; [reflexivity|]. split.
  - intros params Hp. unfold requested_limit. rewrite Hp. split; reflexivity.
  - intros params N w. apply http_get_sample_data_queries.
Qed.

(** ** Upload *)

Lemma has_required_fields_lookup r :
  has_required_fields r = true <->
  exists m s v, r !! lit "MEDCode" = Some m /\ r !! lit "Slot" = Some s
                /\ r !! lit "Value" = Some v.
Proof.
  unfold has_required_fields, REQUIRED_FIELDS. cbn [forallb].
  destruct (r !! lit "MEDCode") as [m|]; destruct (r !! lit "Slot") as [s|];
    destruct (r !! lit "Value") as [v|]; simpl;
    (split; [intros H; try discriminate H; eauto 10
            | intros (m' & s' & v' & Hm & Hs & Hv);
              try reflexivity; discriminate]).
Qed.

Lemma upload_record_missing env i r acc w :
  has_required_fields r = false ->
  upload_record env i r acc w
  = (inr (fst acc, snd acc ++ [missing_fields_error i]), w).
Proof. intros H. unfold upload_record, try_except. rewrite H. reflexivity. Qed.

Lemma upload_record_eq env i r acc w m s v :
  r !! lit "MEDCode" = Some m -> r !! lit "Slot" = Some s ->
  r !! lit "Value" = Some v ->
  upload_record env i r acc w =
  match py_str env v (record_call CallUuid4 w) with
  | (inl e, w2) => (inr (fst acc, snd acc ++ [record_error i e]), w2)
  | (inr value, w2) =>
      let document :=
        mkDocument (uuid4 env (calls w)) m s value (utcnow env (calls w2)) in
      let w4 := record_call (CallCreateItem document) (record_call CallUtcnow w2) in
      match create_item env (calls w2 ++ [CallUtcnow]) document with
      | Some e => (inr (fst acc, snd acc ++ [record_error i e]), w4)
      | None => (inr ((fst acc + 1)%Z, snd acc), w4)
      end
  end.
Proof.
  intros Hm Hs Hv.
  assert (Hf : has_required_fields r = true).
  { apply has_required_fields_lookup. eauto 10. }
  unfold upload_record, try_except. rewrite Hf. cbn [negb].
  unfold bind at 1, call_total, call.
  unfold bind at 1, getitem. rewrite Hm. unfold ret at 1.
  unfold bind at 1. rewrite Hs. unfold ret at 1.
  unfold bind at 1. rewrite Hv. unfold ret at 1.
  unfold bind at 1.
  destruct (py_str env v (record_call CallUuid4 w)) as [[e|value] w2]; [reflexivity|].
  unfold bind at 1, now, call_total, call.
  unfold bind, call_unit, call, ret. cbn [calls record_call].
  destruct (create_item env (calls w2 ++ [CallUtcnow])
              (mkDocument (uuid4 env (calls w)) m s value (utcnow env (calls w2))));
    reflexivity.
Qed.

Lemma py_str_effect env v w :
  same_store w (snd (py_str env v w))
  /\ forall s, fst (py_str env v w) = inr s -> str_result env v s.
Proof.
  unfold py_str, str_result.
  destruct v; simpl;
    try (split; [apply same_store_record; discriminate | intros s Hs; right; eauto]).
  split; [apply same_store_refl|]. intros t [= ->]. left. reflexivity.
Qed.

Lemma py_str_succeeds env v w :
  uploads_succeed env ->
  exists s, fst (py_str env v w) = inr s.
Proof.
  intros [_ Hs]. unfold py_str.
  destruct v; simpl; try apply Hs. eauto.
Qed.

(** One turn of the loop never raises: the record is counted as uploaded or
    gets one error, no query is made, and what is written was built from it. *)
Lemma upload_record_effect env i r acc w :
  exists acc' w' ds,
    upload_record env i r acc w = (inr acc', w')
    /\ ((fst acc' = (fst acc + 1)%Z /\ snd acc' = snd acc)
        \/ (fst acc' = fst acc /\ exists msg, snd acc' = snd acc ++ [msg]))
    /\ store_queries (calls w') = store_queries (calls w)
    /\ store_writes (calls w') = store_writes (calls w) ++ ds
    /\ Forall (built_from env r) ds.
Proof.
  destruct (has_required_fields r) eqn:Hf.
  - apply has_required_fields_lookup in Hf as (m & s & v & Hm & Hs & Hv).
    rewrite (upload_record_eq env i r acc w m s v Hm Hs Hv).
    destruct (py_str_effect env v (record_call CallUuid4 w)) as [[Hq Hw] Hstr].
    destruct (same_store_record CallUuid4 w) as [Hq0 Hw0]; [discriminate..|].
    destruct (py_str env v (record_call CallUuid4 w)) as [[e|value] w2];
      cbn [fst snd] in Hq, Hw, Hstr.
    + exists (fst acc, snd acc ++ [record_error i e]), w2, [].
      split; [reflexivity|]. split; [right; simpl; eauto|].
      split; [congruence|]. split; [rewrite app_nil_r; congruence|constructor].
    + set (document := mkDocument (uuid4 env (calls w)) m s value (utcnow env (calls w2))).
      assert (Hb : built_from env r document).
      { unfold built_from, document. simpl. repeat split; eauto. }
      assert (Hq4 : store_queries
                      (calls (record_call (CallCreateItem document)
                                (record_call CallUtcnow w2)))
                    = store_queries (calls w)).
      { simpl. rewrite !store_queries_app. simpl. rewrite !app_nil_r. congruence. }
      assert (Hw4 : store_writes
                      (calls (record_call (CallCreateItem document)
                                (record_call CallUtcnow w2)))
                    = store_writes (calls w) ++ [document]).
      { simpl. rewrite !store_writes_app. simpl. rewrite app_nil_r. congruence. }
      cbv zeta. fold document.
      destruct (create_item env (calls w2 ++ [CallUtcnow]) document) as [e|].
      * eexists _, _, [document]. split; [reflexivity|].
        split; [right; simpl; eauto|]. repeat split; auto.
      * eexists _, _, [document]. split; [reflexivity|].
        split; [left; simpl; auto|]. repeat split; auto.
  - rewrite (upload_record_missing env i r acc w Hf).
    eexists _, _, []. split; [reflexivity|]. split; [right; simpl; eauto|].
    rewrite app_nil_r. repeat split; constructor.
Qed.

(** The loop never raises; every record ends as one upload or one error. *)
Lemma upload_loop_effect env records : forall i acc w,
  exists acc' w' ds,
    upload_loop env i records acc w = (inr acc', w')
    /\ (fst acc <= fst acc')%Z
    /\ (fst acc' - fst acc + Z.of_nat (length (snd acc')) - Z.of_nat (length (snd acc))
        = Z.of_nat (length records))%Z
    /\ store_queries (calls w') = store_queries (calls w)
    /\ store_writes (calls w') = store_writes (calls w) ++ ds
    /\ Forall (fun d => exists r, In r records /\ built_from env r d) ds.
Proof.
  induction records as [|r rest IH]; intros i acc w.
  - exists acc, w, []. simpl. rewrite app_nil_r.
    repeat split; [lia|lia|constructor].
  - destruct (upload_record_effect env i r acc w)
      as (acc1 & w1 & ds1 & Hr & Hcount & Hq1 & Hw1 & Hb1).
    destruct (IH (S i) acc1 w1) as (acc2 & w2 & ds2 & Hl & Hle & Hsum & Hq2 & Hw2 & Hb2).
    exists acc2, w2, (ds1 ++ ds2).
    cbn [upload_loop]. unfold bind. rewrite Hr, Hl.
    split; [reflexivity|].
    assert (Hstep : (fst acc <= fst acc1
                     /\ fst acc1 - fst acc + Z.of_nat (length (snd acc1))
                        - Z.of_nat (length (snd acc)) = 1)%Z).
    { destruct Hcount as [[H1 H2]|[H1 [msg H2]]]; rewrite H1, H2;
        [|rewrite length_app; simpl]; lia. }
    split; [lia|]. split; [simpl length; lia|]. split; [congruence|].
    split; [rewrite Hw2, Hw1, app_assoc; reflexivity|].
    apply Forall_app. split.
    + eapply Forall_impl; [exact Hb1|]. intros d Hd.
      exists r. split; [left; reflexivity|exact Hd].
    + eapply Forall_impl; [exact Hb2|]. intros d [r' [Hin Hd]].
      exists r'. split; [right; exact Hin|exact Hd].
Qed.



Lemma upload_medical_records_eq env records w :
  upload_medical_records env records w =
  match _ensure_initialized env w with
  | (inl e, w0) => (inl e, w0)
  | (inr _, w0) =>
      match container w0 with
      | None =>
          (inl (mkExn RuntimeError (lit "Cosmos DB container not properly initialized")),
           w0)
      | Some _ =>
          match upload_loop env 0 records (0%Z, []) w0 with
          | (inl e, w1) => (inl e, w1)
          | (inr acc, w1) =>
              (inr (mkUploadResult (fst acc) (Z.of_nat (length records)) (snd acc)
                                   (0 <? fst acc)%Z (utcnow env (calls w1))),
               record_call CallUtcnow w1)
          end
      end
  end.
Proof.
  unfold upload_medical_records, bind at 1.
  destruct (_ensure_initialized env w) as [[e|u] w0]; [reflexivity|].
  unfold bind at 1, get_world. destruct (container w0); [|reflexivity].
  unfold bind at 1.
  destruct (upload_loop env 0 records (0%Z, []) w0) as [[e|acc] w1]; reflexivity.
Qed.

(** When nothing outside fails, a record with its fields is uploaded. *)
Lemma upload_record_ok env i r acc w :
  uploads_succeed env -> has_required_fields r = true ->
  exists w' d,
    upload_record env i r acc w = (inr ((fst acc + 1)%Z, snd acc), w')
    /\ store_writes (calls w') = store_writes (calls w) ++ [d].
Proof.
  intros Hok Hf.
  apply has_required_fields_lookup in Hf as (m & s & v & Hm & Hs & Hv).
  rewrite (upload_record_eq env i r acc w m s v Hm Hs Hv).
  destruct (py_str_succeeds env v (record_call CallUuid4 w) Hok) as [value Hval].
  destruct (py_str_effect env v (record_call CallUuid4 w)) as [[_ Hw] _].
  destruct (same_store_record CallUuid4 w) as [_ Hw0]; [discriminate..|].
  destruct (py_str env v (record_call CallUuid4 w)) as [[e|value'] w2];
    cbn [fst snd] in Hval, Hw; [discriminate|].
  cbv zeta. destruct Hok as [Hc _]. rewrite Hc.
  eexists _, _. split; [reflexivity|].
  simpl. rewrite !store_writes_app. simpl. rewrite app_nil_r, Hw, Hw0. reflexivity.
Qed.

Lemma upload_loop_ok env records :
  uploads_succeed env ->
  forall i acc w,
  exists w',
    upload_loop env i records acc w
    = (inr ((fst acc + Z.of_nat (valid_count records))%Z,
            snd acc ++ missing_errors i records), w')
    /\ length (store_writes (calls w'))
       = (length (store_writes (calls w)) + valid_count records)%nat.
Proof.
  intros Hok. unfold valid_count.
  induction records as [|r rest IH]; intros i acc w.
  - exists w. simpl. rewrite app_nil_r, Z.add_0_r, Nat.add_0_r.
    destruct acc; split; reflexivity.
  - cbn [upload_loop missing_errors List.filter]. unfold bind.
    destruct (has_required_fields r) eqn:Hf.
    + destruct (upload_record_ok env i r acc w Hok Hf) as (w1 & d & Hr & Hw1).
      rewrite Hr. destruct (IH (S i) ((fst acc + 1)%Z, snd acc) w1) as (w2 & Hl & Hw2).
      exists w2. rewrite Hl. cbn [fst snd length app]. split.
      * do 3 f_equal. lia.
      * rewrite Hw2, Hw1, length_app. simpl. lia.
    + rewrite (upload_record_missing env i r acc w Hf).
      destruct (IH (S i) (fst acc, snd acc ++ [missing_fields_error i]) w) as (w2 & Hl & Hw2).
      exists w2. rewrite Hl. cbn [fst snd]. split; [|exact Hw2].
      rewrite <- app_assoc. reflexivity.
Qed.

Lemma all_fields_present (records : list record) :
  (forall k r, records !! k = Some r -> has_required_fields r = true) ->
  forall i, missing_errors i records = [] /\ valid_count records = length records.
Proof.
  unfold valid_count.
  induction records as [|r rest IH]; intros H i; [split; reflexivity|].
  cbn [missing_errors List.filter]. rewrite (H 0%nat r eq_refl).
  destruct (IH (fun k => H (S k)) (S i)) as [-> Hv].
  simpl. rewrite Hv. split; reflexivity.
Qed.

Lemma one_field_missing (records : list record) : forall j r i,
  records !! j = Some r -> has_required_fields r = false ->
  (forall k r', k <> j -> records !! k = Some r' -> has_required_fields r' = true) ->
  missing_errors i records = [missing_fields_error (i + j)]
  /\ S (valid_count records) = length records.
Proof.
  unfold valid_count.
  induction records as [|r0 rest IH]; intros j r i Hj Hr Hothers; [discriminate|].
  cbn [missing_errors List.filter]. destruct j as [|j].
  - injection Hj as ->. rewrite Hr.
    destruct (all_fields_present rest (fun k r' => Hothers (S k) r' (Nat.neq_succ_0 k)) (S i))
      as [-> Hv].
    unfold valid_count in Hv. rewrite Hv, Nat.add_0_r. split; reflexivity.
  - rewrite (Hothers 0%nat r0 (Nat.neq_0_succ j) eq_refl).
    destruct (IH j r (S i) Hj Hr) as [-> Hv].
    + intros k r' Hk. apply (Hothers (S k)). lia.
    + simpl. rewrite Hv. split; [|reflexivity].
      do 2 f_equal. lia.
Qed.

(** C8. In a batch where exactly one record lacks a required field and
    nothing outside fails, all the other records are uploaded: the count is
    the total less one and the only error names the record and the missing
    required fields. *)
Theorem one_missing_field_in_batch
  (env : Env) (records : list record) (j : nat) (r : record) (w : World) :
  wf_world w ->
  fst (_ensure_initialized env w) = inr tt ->
  uploads_succeed env ->
  records !! j = Some r ->
  has_required_fields r = false ->
  (forall k r', k <> j -> records !! k = Some r' -> has_required_fields r' = true) ->
  exists res w',
    upload_medical_records env records w = (inr res, w')
    /\ uploaded_count res = (total_records res - 1)%Z
    /\ total_records res = Z.of_nat (length records)
    /\ errors res = [missing_fields_error j]
    /\ S (length (store_writes (calls w')))
       = (length (store_writes (calls w)) + length records)%nat.
Proof.
  intros Hw Hinit Hok Hj Hr Hothers.
  rewrite upload_medical_records_eq.
  destruct (ensure_initialized_effect env w) as [[_ Hs0] Hc].
  destruct (Hc Hw) as [_ Hconn]. specialize (Hconn Hinit).
  destruct (_ensure_initialized env w) as [[e|u] w0]; [discriminate|].
  cbn [fst snd] in Hs0, Hconn. destruct Hconn as (_ & Hcont & _). rewrite Hcont.
  destruct (upload_loop_ok env records Hok 0%nat (0%Z, []) w0) as (w1 & Hl & Hw1).
  destruct (one_field_missing records j r 0%nat Hj Hr Hothers) as [Hm Hv].
  rewrite Hl. eexists _, _. split; [reflexivity|]. cbn [fst snd].
  cbn [uploaded_count total_records errors calls record_call].
  rewrite Hm, store_writes_app, length_app. simpl. rewrite Hw1, Hs0.
  repeat split; lia.
Qed.





(** A record that fails its validation or its upload is not counted: the
    turn of the loop ends with the same count and one more error. *)
Lemma upload_record_fails env i r acc w :
  upload_fails env r ->
  exists msg w', upload_record env i r acc w = (inr (fst acc, snd acc ++ [msg]), w').
Proof.
  intros Hf. destruct (has_required_fields r) eqn:Hreq.
  2: { rewrite (upload_record_missing env i r acc w Hreq). eauto. }
  apply has_required_fields_lookup in Hreq as (m & s & v & Hm & Hs & Hv).
  rewrite (upload_record_eq env i r acc w m s v Hm Hs Hv).
  destruct (py_str_effect env v (record_call CallUuid4 w)) as [_ Hres].
  destruct Hf as [Hf|[(v' & Hv' & Hstr)|Hstore]].
  - assert (Hreq : has_required_fields r = true).
    { apply has_required_fields_lookup. eauto 10. }
    congruence.
  - assert (v' = v) as -> by congruence.
    destruct (Hstr (record_call CallUuid4 w)) as [e He].
    destruct (py_str env v (record_call CallUuid4 w)) as [[e'|value] w2];
      cbn [fst] in He; [eauto|discriminate].
  - destruct (py_str env v (record_call CallUuid4 w)) as [[e|value] w2];
      cbn [fst] in Hres; [eauto|].
    cbv zeta.
    assert (Hb : built_from env r
                   (mkDocument (uuid4 env (calls w)) m s value (utcnow env (calls w2)))).
    { unfold built_from. simpl. repeat split; eauto. }
    destruct (create_item env (calls w2 ++ [CallUtcnow])
                (mkDocument (uuid4 env (calls w)) m s value (utcnow env (calls w2))))
      as [e|] eqn:Hc; [eauto|].
    exfalso. exact (Hstore _ _ Hb Hc).
Qed.

Lemma upload_loop_fails env records : forall i acc w,
  Forall (upload_fails env) records ->
  exists acc' w',
    upload_loop env i records acc w = (inr acc', w')
    /\ fst acc' = fst acc
    /\ length (snd acc') = (length (snd acc) + length records)%nat.
Proof.
  induction records as [|r rest IH]; intros i acc w Hall.
  - exists acc, w. simpl. repeat split; lia.
  - apply Forall_cons in Hall as [Hr Hrest].
    destruct (upload_record_fails env i r acc w Hr) as (msg & w1 & Hrec).
    destruct (IH (S i) (fst acc, snd acc ++ [msg]) w1 Hrest) as (acc2 & w2 & Hl & H1 & H2).
    exists acc2, w2. cbn [upload_loop]. unfold bind. rewrite Hrec, Hl.
    cbn [fst snd] in H1, H2. rewrite length_app in H2. simpl in H2 |- *.
    repeat split; [exact H1|lia].
Qed.

(** C10. The result of an upload reports success exactly when at least one
    record was uploaded. Every record is either uploaded or has one error, so
    an empty batch reports no success. A batch in which every record fails,
    by a missing field, by a value [str] cannot convert or by a store that
    refuses its document, has a count of 0, no success and one error for each
    record; and when nothing outside fails, the count is the number of
    records with their three fields, so that the upload succeeds exactly when
    there is such a record. The errors and the total are in every result. *)
Theorem upload_success_iff_some_uploaded
  (env : Env) (records : list record) (w : World) (res : UploadResult) (w' : World) :
  upload_medical_records env records w = (inr res, w') ->
  (upload_success res = true <-> (0 < uploaded_count res)%Z)
  /\ total_records res = Z.of_nat (length records)
  /\ (0 <= uploaded_count res)%Z
  /\ (uploaded_count res + Z.of_nat (length (errors res)) = total_records res)%Z
  /\ (records = [] -> upload_success res = false /\ errors res = [])
  /\ (uploaded_count res = 0%Z ->
      upload_success res = false
      /\ Z.of_nat (length (errors res)) = total_records res)
  /\ (Forall (upload_fails env) records ->
      uploaded_count res = 0%Z /\ upload_success res = false
      /\ length (errors res) = length records)
  /\ (uploads_succeed env ->
      uploaded_count res = Z.of_nat (valid_count records)
      /\ errors res = missing_errors 0 records
      /\ (upload_success res = true <-> (0 < valid_count records)%nat)).
Proof.
  rewrite upload_medical_records_eq.
  destruct (_ensure_initialized env w) as [[e|u] w0]; [discriminate|].
  destruct (container w0); [|discriminate].
  destruct (upload_loop_effect env records 0%nat (0%Z, []) w0)
    as (acc & w1 & ds & Hl & Hle & Hsum & _).
  rewrite Hl. intros [= <- <-]. cbn [fst snd length] in *.
  cbn [upload_success uploaded_count total_records errors].
  split; [apply Z.ltb_lt|]. split; [reflexivity|]. split; [lia|]. split; [lia|].
  split; [|split; [|split]].
  - intros ->. simpl in Hsum.
    assert (fst acc = 0%Z) as -> by lia. split; [reflexivity|].
    destruct (snd acc); [reflexivity|simpl in Hsum; lia].
  - intros H0. rewrite H0 in *. split; [reflexivity|lia].
  - intros Hall.
    destruct (upload_loop_fails env records 0%nat (0%Z, []) w0 Hall)
      as (acc2 & w2 & Hl2 & H1 & H2).
    rewrite Hl in Hl2. injection Hl2 as <- _. cbn [fst snd length] in H1, H2.
    rewrite H1. repeat split. exact H2.
  - intros Hok.
    destruct (upload_loop_ok env records Hok 0%nat (0%Z, []) w0) as (w2 & Hl2 & _).
    rewrite Hl in Hl2. injection Hl2 as -> _. cbn [fst snd app].
    split; [lia|]. split; [reflexivity|].
    rewrite Z.ltb_lt. lia.
Qed.

(** ** The theorems on concrete runs *)

Lemma wf_new_processor : wf_world new_processor.
Proof. unfold wf_world, new_processor. simpl. discriminate. Qed.

Lemma connected_ready_processor : connected ready_processor.
Proof. repeat split. Qed.


(** A query in lower case behind white space: its leading token is the
    keyword, and the guard accepts it. *)
Lemma lower_case_select_passes :
  leading_token_is_select DELETE_ENV LOWER_SELECT = true
  /\ read_only_guard DELETE_ENV LOWER_SELECT = true.
Proof.
  assert (H : leading_token_is_select DELETE_ENV LOWER_SELECT = true)
    by (vm_compute; reflexivity).
  split; [exact H|].
  exact (proj1 (proj2 (read_only_guard_is_prefix_test DELETE_ENV LOWER_SELECT)) H).
Defined.

(** C2, as stated, fails: the completion text DELETE ... was cleaned and
    returned by the generation, the guard rejected it, and the failed outcome
    has no generated query text. *)
Lemma failed_outcome_lacks_generated_sql :
  fst (generate_sql_query DELETE_ENV SHOW_1302 new_processor) = inr DELETE_1302
  /\ fst (process_natural_language_query DELETE_ENV SHOW_1302 new_processor)
     = inr (mkOutcome SHOW_1302 None None 0%Z false
                      (Some (lit "Only SELECT queries are allowed")) (lit "T3")).
Proof. split; vm_compute; reflexivity. Qed.

Lemma generation_of_delete :
  generate_sql_query DELETE_ENV SHOW_1302 new_processor = (inr DELETE_1302, after_generation).
Proof. vm_compute. reflexivity. Qed.

(** The rejected DELETE: a failure after the generation. *)
Lemma rejected_delete_drops_sql :
  exists o w3,
    process_natural_language_query DELETE_ENV SHOW_1302 new_processor = (inr o, w3)
    /\ success o = false /\ results o = None /\ row_count o = 0%Z
    /\ generated_sql o = None
    /\ error o = Some (lit "Only SELECT queries are allowed").
Proof.
  apply (failure_after_generation_drops_sql DELETE_ENV SHOW_1302 new_processor
           DELETE_1302 after_generation
           (mkExn ValueError (lit "Only SELECT queries are allowed")) after_generation).
  - vm_compute. reflexivity.
  - vm_compute. reflexivity.
Defined.



(** The batch of the refused record and the record without its value: both
    fail. *)
Lemma refused_and_missing_fail :
  Forall (upload_fails REFUSING_ENV) batch_refused_and_missing.
Proof.
  constructor; [|constructor; [|constructor]].
  - right. right. intros h d _. discriminate.
  - left. reflexivity.
Qed.

(** A request for 1000 sample rows asks the store for 100. *)
Lemma thousand_rows_requested :
  store_queries
    (calls (snd (http_get_sample_data DELETE_ENV {[ lit "limit" := lit "1000" ]}
                                      ready_processor)))
  = [lit "SELECT TOP 100 * FROM c ORDER BY c.MEDCode"].
Proof.
  apply (proj2 (proj2 (proj2 (proj2 (sample_limit_is_clamped DELETE_ENV))))
           {[ lit "limit" := lit "1000" ]} 1000%Z ready_processor).
  - vm_compute. reflexivity.
  - repeat split.
Defined.

(** Three records, the second without its Value: two uploads, one error. *)
Lemma batch_with_one_missing_value :
  exists res w',
    upload_medical_records DELETE_ENV batch_one_missing new_processor = (inr res, w')
    /\ uploaded_count res = (total_records res - 1)%Z
    /\ total_records res = 3%Z
    /\ errors res = [lit "Record 1: Missing required fields (MEDCode, Slot, Value)"]
    /\ S (length (store_writes (calls w'))) = 3%nat.
Proof.
  apply (one_missing_field_in_batch DELETE_ENV batch_one_missing 1 record_no_value
           new_processor).
  - unfold wf_world. simpl. discriminate.
  - vm_compute. reflexivity.
  - split; [reflexivity|]. intros h v. simpl. destruct v; eauto.
  - reflexivity.
  - vm_compute. reflexivity.
  - intros k r' Hk Hr'. destruct k as [|[|[|k]]]; simpl in Hr'.
    + injection Hr' as <-. vm_compute. reflexivity.
    + exfalso. apply Hk. reflexivity.
    + injection Hr' as <-. vm_compute. reflexivity.
    + discriminate Hr'.
Defined.


(** A batch of a complete record, which the store refuses, and a record
    without its value: nothing uploaded, no success, two errors, a total of 2. *)
Lemma failed_batch_reports_no_success :
  (upload_success NOTHING_UPLOADED = true <-> (0 < uploaded_count NOTHING_UPLOADED)%Z)
  /\ total_records NOTHING_UPLOADED = Z.of_nat (length batch_refused_and_missing)
  /\ (0 <= uploaded_count NOTHING_UPLOADED)%Z
  /\ (uploaded_count NOTHING_UPLOADED + Z.of_nat (length (errors NOTHING_UPLOADED))
      = total_records NOTHING_UPLOADED)%Z
  /\ (batch_refused_and_missing = [] ->
      upload_success NOTHING_UPLOADED = false /\ errors NOTHING_UPLOADED = [])
  /\ (uploaded_count NOTHING_UPLOADED = 0%Z ->
      upload_success NOTHING_UPLOADED = false
      /\ Z.of_nat (length (errors NOTHING_UPLOADED)) = total_records NOTHING_UPLOADED)
  /\ (Forall (upload_fails REFUSING_ENV) batch_refused_and_missing ->
      uploaded_count NOTHING_UPLOADED = 0%Z /\ upload_success NOTHING_UPLOADED = false
      /\ length (errors NOTHING_UPLOADED) = length batch_refused_and_missing)
  /\ (uploads_succeed REFUSING_ENV ->
      uploaded_count NOTHING_UPLOADED = Z.of_nat (valid_count batch_refused_and_missing)
      /\ errors NOTHING_UPLOADED = missing_errors 0 batch_refused_and_missing
      /\ (upload_success NOTHING_UPLOADED = true
          <-> (0 < valid_count batch_refused_and_missing)%nat)).
Proof.
  apply (upload_success_iff_some_uploaded
           REFUSING_ENV batch_refused_and_missing new_processor NOTHING_UPLOADED
           (snd (upload_medical_records REFUSING_ENV batch_refused_and_missing
                                        new_processor))).
  vm_compute. reflexivity.
Defined.

(** ** More on the sanitizer and the guard *)

Lemma occursb_cons t c r :
  occursb t (c :: r) = startswith (c :: r) t || occursb t r.
Proof. reflexivity. Qed.

Lemma occursb_false t s : occursb t s = false -> ~ Occurs t s.
Proof.
  induction s as [|c r IH]; intros H [a [b Hab]].
  - assert (Ht : startswith [] t = true).
    { apply startswith_spec. exists b. destruct a; [exact Hab|discriminate]. }
    change (occursb t []) with (startswith [] t || false) in H.
    rewrite Ht in H. discriminate.
  - rewrite occursb_cons in H. apply orb_false_iff in H as [H1 H2].
    destruct a as [|a0 a].
    + assert (Ht : startswith (c :: r) t = true).
      { apply startswith_spec. exists b. exact Hab. }
      congruence.
    + apply (IH H2). exists a, b. rewrite <- app_comm_cons in Hab.
      injection Hab as _ Hab. exact Hab.
Qed.

Lemma sub_scan_sublist fence s : forall k, sub_scan fence k s `sublist_of` s.
Proof.
  induction s as [|c r IH]; intros k; simpl; [constructor|].
  destruct k as [|k]; [|constructor; apply IH].
  destruct (match_fence fence (c :: r)) as [[|n]|]; constructor; apply IH.
Qed.

Lemma strip_sublist s : strip s `sublist_of` s.
Proof.
  destruct (strip_piece s) as [a [b H]]. rewrite H at 2.
  apply sublist_inserts_l, sublist_inserts_r. reflexivity.
Qed.

(** A completion text with no fence in it is only trimmed: the clean query
    comes back unchanged apart from its surrounding white space. *)
Theorem sanitize_without_fence (x : str) :
  ~ Occurs FENCE x -> sanitize x = strip x.
Proof.
  intros H. assert (Hs : ~ Occurs FENCE (strip x)).
  { intros Ho. apply H, Occurs_strip, Ho. }
  unfold sanitize.
  rewrite (re_sub_remove_absent FENCE_SQL).
  - rewrite (re_sub_remove_absent FENCE _ Hs). apply strip_strip.
  - intros Ho. apply Hs, Occurs_fence_sql, Ho.
Qed.

Lemma padded_select_is_trimmed : sanitize PADDED_SELECT = lit "SELECT * FROM c".
Proof.
  rewrite (sanitize_without_fence PADDED_SELECT).
  - vm_compute. reflexivity.
  - apply occursb_false. vm_compute. reflexivity.
Defined.

(** Whatever the completion text, the cleaned text has no triple backtick
    left, wherever the fences stood, has no white space around it, and is made
    of characters of the input in their order: nothing is added. *)
Theorem sanitize_output_shape (x : str) :
  ~ Occurs FENCE (sanitize x)
  /\ head_is_text (sanitize x) /\ last_is_text (sanitize x)
  /\ sanitize x `sublist_of` x
  /\ (length (sanitize x) <= length x)%nat.
Proof.
  assert (Hsub : sanitize x `sublist_of` x).
  { unfold sanitize, re_sub_remove.
    etransitivity; [apply strip_sublist|].
    etransitivity; [apply sub_scan_sublist|].
    etransitivity; [apply sub_scan_sublist|]. apply strip_sublist. }
  split; [apply sanitize_clean|]. split; [apply strip_head|].
  split; [apply strip_last|]. split; [exact Hsub|].
  apply sublist_length, Hsub.
Qed.

Lemma upper_SELECT env : upper env SELECT = SELECT.
Proof. reflexivity. Qed.

Lemma guard_of_stripped env s :
  read_only_guard env (strip s) = read_only_guard env s.
Proof. unfold read_only_guard. rewrite strip_strip. reflexivity. Qed.

(** The guard looks at the first six characters only: whatever follows the
    keyword, a second statement included, the query passes, and on a connected
    processor the whole text is what the store receives. *)
Theorem guard_ignores_what_follows (env : Env) (rest : str) :
  read_only_guard env (SELECT ++ rest) = true
  /\ read_only_guard env (lit "select" ++ rest) = true
  /\ forall w, connected w ->
       execute_query env (SELECT ++ rest) w
       = (query_items env (calls w) (SELECT ++ rest),
          record_call (CallQueryItems (SELECT ++ rest)) w).
Proof.
  assert (H1 : read_only_guard env (SELECT ++ rest) = true).
  { unfold read_only_guard, strip. apply startswith_spec.
    change (lstrip (SELECT ++ rest)) with (SELECT ++ rest).
    rewrite rstrip_app_text by reflexivity.
    rewrite upper_app, upper_SELECT. eauto. }
  split; [exact H1|]. split.
  - unfold read_only_guard, strip. apply startswith_spec.
    change (lstrip (lit "select" ++ rest)) with (lit "select" ++ rest).
    rewrite rstrip_app_text by reflexivity.
    rewrite upper_app. change (upper env (lit "select")) with SELECT. eauto.
  - intros w Hc. rewrite (execute_query_connected env _ w Hc), H1. reflexivity.
Qed.

Lemma stacked_query_reaches_store :
  store_queries
    (calls (snd (execute_query DELETE_ENV STACKED_QUERY ready_processor)))
  = [STACKED_QUERY].
Proof.
  change STACKED_QUERY with (SELECT ++ lit " * FROM c; DELETE FROM c").
  rewrite (proj2 (proj2 (guard_ignores_what_follows
                           DELETE_ENV (lit " * FROM c; DELETE FROM c")))
             ready_processor connected_ready_processor).
  reflexivity.
Defined.

Lemma lstrip_blank s : forallb isspace s = true -> lstrip s = [].
Proof.
  induction s as [|c r IH]; simpl; [reflexivity|].
  intros H. apply andb_true_iff in H as [-> Hr]. apply IH, Hr.
Qed.

(** A query that is empty or all white space is rejected by the guard: on a
    connected processor [execute_query] raises ValueError and calls nothing. *)
Theorem blank_query_is_rejected (env : Env) (s : str) (w : World) :
  forallb isspace s = true -> connected w ->
  read_only_guard env s = false
  /\ execute_query env s w
     = (inl (mkExn ValueError (lit "Only SELECT queries are allowed")), w).
Proof.
  intros Hs Hc.
  assert (Hg : read_only_guard env s = false).
  { unfold read_only_guard, strip. rewrite (lstrip_blank s Hs). reflexivity. }
  split; [exact Hg|].
  rewrite (execute_query_connected env s w Hc), Hg. reflexivity.
Qed.

Lemma blank_query_rejected_run :
  read_only_guard DELETE_ENV BLANK_QUERY = false
  /\ execute_query DELETE_ENV BLANK_QUERY ready_processor
     = (inl (mkExn ValueError (lit "Only SELECT queries are allowed")), ready_processor).
Proof.
  apply (blank_query_is_rejected DELETE_ENV BLANK_QUERY ready_processor).
  - vm_compute. reflexivity.
  - exact connected_ready_processor.
Defined.

(** ** More on the connections and the pipeline *)

(** Once [_ensure_initialized] has succeeded the processor is connected, and
    no later call runs a set-up again, whatever the services would answer. *)
Theorem initialization_happens_once (env : Env) (w w1 : World) :
  wf_world w -> _ensure_initialized env w = (inr tt, w1) ->
  connected w1 /\ forall env', _ensure_initialized env' w1 = (inr tt, w1).
Proof.
  intros Hw H. destruct (ensure_initialized_effect env w) as [_ Hc].
  destruct (Hc Hw) as [_ Hconn]. rewrite H in Hconn.
  specialize (Hconn eq_refl). split; [exact Hconn|].
  intros env'. apply ensure_initialized_connected, Hconn.
Qed.

Lemma new_processor_connects_once :
  connected just_connected
  /\ forall env', _ensure_initialized env' just_connected = (inr tt, just_connected).
Proof.
  apply (initialization_happens_once DELETE_ENV new_processor just_connected).
  - unfold wf_world. simpl. discriminate.
  - vm_compute. reflexivity.
Defined.

(** When the Cosmos set-up succeeds and the OpenAI set-up raises, the
    exception goes to the caller, the container is kept but the processor
    stays uninitialised: the next call runs the Cosmos set-up again first. *)
Theorem failed_openai_setup_repeats_cosmos_setup (env : Env) (w : World) (e : exn) :
  _initialized w = false ->
  cosmos_setup env (calls w) = None ->
  openai_setup env (calls w ++ [CallCosmosSetup]) = Some e ->
  exists w1,
    _ensure_initialized env w = (inl e, w1)
    /\ _initialized w1 = false /\ container w1 = Some Handle
    /\ openai_client w1 = openai_client w
    /\ calls w1 = calls w ++ [CallCosmosSetup; CallOpenAISetup]
    /\ forall env', exists rest,
         calls (snd (_ensure_initialized env' w1)) = calls w1 ++ CallCosmosSetup :: rest.
Proof.
  intros Hi Hc Ho. rewrite ensure_initialized_eq, Hi, Hc, Ho.
  eexists. split; [reflexivity|]. cbn [_initialized container openai_client calls].
  split; [reflexivity|]. split; [reflexivity|]. split; [reflexivity|].
  split; [rewrite <- app_assoc; reflexivity|].
  intros env'. rewrite ensure_initialized_eq. cbn [_initialized calls].
  destruct (cosmos_setup env' _); [exists []; reflexivity|].
  destruct (openai_setup env' _); cbn [snd calls];
    exists [CallOpenAISetup]; rewrite <- app_assoc; reflexivity.
Qed.

Lemma openai_down_run :
  exists w1,
    _ensure_initialized OPENAI_DOWN_ENV new_processor
    = (inl (mkExn ValueError
                  (lit "Missing required environment variable: AZURE_OPENAI_ENDPOINT")), w1)
    /\ _initialized w1 = false /\ container w1 = Some Handle
    /\ openai_client w1 = openai_client new_processor
    /\ calls w1 = calls new_processor ++ [CallCosmosSetup; CallOpenAISetup]
    /\ forall env', exists rest,
         calls (snd (_ensure_initialized env' w1)) = calls w1 ++ CallCosmosSetup :: rest.
Proof.
  apply (failed_openai_setup_repeats_cosmos_setup OPENAI_DOWN_ENV new_processor);
    reflexivity.
Defined.

Lemma generate_sql_query_sanitized env query w sql w1 :
  generate_sql_query env query w = (inr sql, w1) ->
  exists content, sql = sanitize content.
Proof.
  unfold generate_sql_query, bind at 1.
  destruct (_ensure_initialized env w) as [[e|u] w0]; [discriminate|].
  unfold bind at 1, get_world. destruct (openai_client w0); [|discriminate].
  unfold bind at 1, call.
  destruct (chat_completions_create env (calls w0) (system_message query))
    as [e|choices]; [discriminate|].
  unfold bind, first_choice_content.
  destruct choices as [|[content|] rest]; try discriminate.
  intros [= <- _]. exists content. reflexivity.
Qed.

Lemma execute_query_eq env sql w :
  execute_query env sql w =
  match _ensure_initialized env w with
  | (inl e, w0) => (inl e, w0)
  | (inr _, w0) =>
      match container w0 with
      | None =>
          (inl (mkExn RuntimeError (lit "Cosmos DB container not properly initialized")),
           w0)
      | Some _ =>
          if read_only_guard env sql
          then (query_items env (calls w0) sql, record_call (CallQueryItems sql) w0)
          else (inl (mkExn ValueError (lit "Only SELECT queries are allowed")), w0)
      end
  end.
Proof.
  unfold execute_query, bind at 1.
  destruct (_ensure_initialized env w) as [[e|u] w0]; [reflexivity|].
  unfold bind, get_world. destruct (container w0); [|reflexivity].
  destruct (read_only_guard env sql); reflexivity.
Qed.

(** [execute_query] writes nothing, and sends at most its own query, only
    after the guard has accepted it. *)
Lemma execute_query_effect env sql w :
  store_writes (calls (snd (execute_query env sql w))) = store_writes (calls w)
  /\ (store_queries (calls (snd (execute_query env sql w))) = store_queries (calls w)
      \/ (store_queries (calls (snd (execute_query env sql w)))
          = store_queries (calls w) ++ [sql]
          /\ read_only_guard env sql = true)).
Proof.
  rewrite execute_query_eq.
  destruct (ensure_initialized_effect env w) as [[Hq Hw] _].
  destruct (_ensure_initialized env w) as [[e|u] w0]; cbn [fst snd] in Hq, Hw |- *.
  { split; [exact Hw|left; exact Hq]. }
  destruct (container w0).
  - destruct (read_only_guard env sql) eqn:Hg.
    + cbn [snd calls record_call].
      rewrite store_writes_app, store_queries_app. simpl. rewrite app_nil_r.
      split; [exact Hw|]. right. split; [rewrite Hq; reflexivity|reflexivity].
    + split; [exact Hw|left; exact Hq].
  - split; [exact Hw|left; exact Hq].
Qed.

(** Whatever the services answer, the pipeline never writes to the store, and
    it sends the store at most one query: a cleaned completion text that the
    guard has accepted. *)
Theorem pipeline_sends_at_most_one_guarded_query (env : Env) (query : str) (w : World) :
  store_writes (calls (snd (process_natural_language_query env query w)))
  = store_writes (calls w)
  /\ (store_queries (calls (snd (process_natural_language_query env query w)))
      = store_queries (calls w)
      \/ exists sql,
           store_queries (calls (snd (process_natural_language_query env query w)))
           = store_queries (calls w) ++ [sql]
           /\ read_only_guard env sql = true
           /\ ~ Occurs FENCE sql).
Proof.
  rewrite process_cases. unfold failed_outcome.
  destruct (generate_sql_query env query w) as [[e|sql] w1] eqn:Hg.
  - destruct (generate_sql_query_effect env query w _ _ Hg) as [[Hq Hw] _].
    cbn [snd calls record_call]. rewrite store_writes_app, store_queries_app.
    simpl. rewrite !app_nil_r. split; [exact Hw|left; exact Hq].
  - destruct (generate_sql_query_effect env query w _ _ Hg) as [[Hq Hw] _].
    destruct (generate_sql_query_sanitized env query w sql w1 Hg) as [content ->].
    destruct (execute_query_effect env (sanitize content) w1) as [Hw2 Hq2].
    assert (Hout :
      forall r w2, execute_query env (sanitize content) w1 = (r, w2) ->
        store_writes (calls (record_call CallUtcnow w2)) = store_writes (calls w)
        /\ (store_queries (calls (record_call CallUtcnow w2)) = store_queries (calls w)
            \/ exists sql,
                 store_queries (calls (record_call CallUtcnow w2))
                 = store_queries (calls w) ++ [sql]
                 /\ read_only_guard env sql = true /\ ~ Occurs FENCE sql)).
    { intros r w2 He. rewrite He in Hw2, Hq2. cbn [snd] in Hw2, Hq2.
      cbn [calls record_call]. rewrite store_writes_app, store_queries_app.
      simpl. rewrite !app_nil_r. split; [congruence|].
      destruct Hq2 as [Hq2|[Hq2 Hguard]]; [left; congruence|].
      right. exists (sanitize content). split; [congruence|].
      split; [exact Hguard|apply sanitize_clean]. }
    destruct (execute_query env (sanitize content) w1) as [[e|rows] w2];
      apply (Hout _ _ eq_refl).
Qed.

(** When the generation fails, for want of a connection, of a choice or of a
    content, the pipeline answers with a failed outcome that carries the
    error's text, and the store is not called. *)
Theorem failed_generation_never_reaches_store
  (env : Env) (query : str) (w : World) (e : exn) (w1 : World) :
  generate_sql_query env query w = (inl e, w1) ->
  process_natural_language_query env query w
  = (inr (mkOutcome query None None 0%Z false (Some (str_of_exn e))
                    (utcnow env (calls w1))),
     record_call CallUtcnow w1)
  /\ store_queries (calls (snd (process_natural_language_query env query w)))
     = store_queries (calls w)
  /\ store_writes (calls (snd (process_natural_language_query env query w)))
     = store_writes (calls w).
Proof.
  intros Hg. destruct (generate_sql_query_effect env query w _ _ Hg) as [[Hq Hw] _].
  rewrite process_cases, Hg. unfold failed_outcome. split; [reflexivity|].
  cbn [snd calls record_call]. rewrite store_writes_app, store_queries_app.
  simpl. rewrite !app_nil_r. split; assumption.
Qed.

Lemma missing_content_run :
  process_natural_language_query NO_CONTENT_ENV SHOW_1302 new_processor
  = (inr (mkOutcome SHOW_1302 None None 0%Z false
                    (Some (lit "'NoneType' object has no attribute 'strip'"))
                    (utcnow NO_CONTENT_ENV (calls after_generation))),
     record_call CallUtcnow after_generation)
  /\ store_queries
       (calls (snd (process_natural_language_query NO_CONTENT_ENV SHOW_1302 new_processor)))
     = store_queries (calls new_processor)
  /\ store_writes
       (calls (snd (process_natural_language_query NO_CONTENT_ENV SHOW_1302 new_processor)))
     = store_writes (calls new_processor).
Proof.
  apply (failed_generation_never_reaches_store NO_CONTENT_ENV SHOW_1302 new_processor
           (mkExn AttributeError (lit "'NoneType' object has no attribute 'strip'"))
           after_generation).
  vm_compute. reflexivity.
Defined.

(** When the generated query passes the guard and the store returns rows, the
    outcome is a success with the cleaned query, the rows in the store's order
    and their number; the store has received that one query and no write. *)
Theorem accepted_query_outcome
  (env : Env) (query : str) (w : World) (sql : str) (w1 : World) (rows : list json) :
  wf_world w ->
  generate_sql_query env query w = (inr sql, w1) ->
  read_only_guard env sql = true ->
  query_items env (calls w1) sql = inr rows ->
  process_natural_language_query env query w
  = (inr (mkOutcome query (Some sql) (Some rows) (Z.of_nat (length rows)) true None
                    (utcnow env (calls w1 ++ [CallQueryItems sql]))),
     record_call CallUtcnow (record_call (CallQueryItems sql) w1))
  /\ store_queries (calls (snd (process_natural_language_query env query w)))
     = store_queries (calls w) ++ [sql]
  /\ store_writes (calls (snd (process_natural_language_query env query w)))
     = store_writes (calls w).
Proof.
  intros Hw Hg Hguard Hrows.
  destruct (generate_sql_query_effect env query w _ _ Hg) as [[Hq Hwr] Hc].
  destruct (Hc Hw) as [_ Hconn]. specialize (Hconn sql eq_refl).
  rewrite process_cases, Hg, (execute_query_connected env sql w1 Hconn), Hguard, Hrows.
  split; [reflexivity|]. cbn [snd calls record_call].
  rewrite !store_writes_app, !store_queries_app. simpl. rewrite !app_nil_r.
  split; congruence.
Qed.

Lemma fenced_select_run :
  process_natural_language_query FENCED_ENV SHOW_1302 new_processor
  = (inr (mkOutcome SHOW_1302 (Some SELECT_1302) (Some [row_1302_150]) 1%Z true None
                    (utcnow FENCED_ENV (calls after_generation ++ [CallQueryItems SELECT_1302]))),
     record_call CallUtcnow (record_call (CallQueryItems SELECT_1302) after_generation))
  /\ store_queries
       (calls (snd (process_natural_language_query FENCED_ENV SHOW_1302 new_processor)))
     = store_queries (calls new_processor) ++ [SELECT_1302]
  /\ store_writes
       (calls (snd (process_natural_language_query FENCED_ENV SHOW_1302 new_processor)))
     = store_writes (calls new_processor).
Proof.
  apply (accepted_query_outcome FENCED_ENV SHOW_1302 new_processor SELECT_1302
           after_generation [row_1302_150]).
  - unfold wf_world. simpl. discriminate.
  - vm_compute. reflexivity.
  - vm_compute. reflexivity.
  - reflexivity.
Defined.

(** ** More on the sample-data endpoint and the upload *)

Lemma get_sample_data_eq env limit w :
  get_sample_data env limit w =
  match _ensure_initialized env w with
  | (inl e, w0) => (inl e, w0)
  | (inr _, w0) =>
      match container w0 with
      | None =>
          (inl (mkExn RuntimeError (lit "Cosmos DB container not properly initialized")),
           w0)
      | Some _ =>
          (query_items env (calls w0) (sample_query limit),
           record_call (CallQueryItems (sample_query limit)) w0)
      end
  end.
Proof.
  unfold get_sample_data, bind at 1.
  destruct (_ensure_initialized env w) as [[e|u] w0]; [reflexivity|].
  unfold bind, get_world. destruct (container w0); reflexivity.
Qed.

(** [get_sample_data] writes nothing and sends at most its own query. *)
Lemma get_sample_data_effect env limit w :
  store_writes (calls (snd (get_sample_data env limit w))) = store_writes (calls w)
  /\ (store_queries (calls (snd (get_sample_data env limit w))) = store_queries (calls w)
      \/ store_queries (calls (snd (get_sample_data env limit w)))
         = store_queries (calls w) ++ [sample_query limit]).
Proof.
  rewrite get_sample_data_eq.
  destruct (ensure_initialized_effect env w) as [[Hq Hw] _].
  destruct (_ensure_initialized env w) as [[e|u] w0]; cbn [fst snd] in Hq, Hw |- *.
  { split; [exact Hw|left; exact Hq]. }
  destruct (container w0).
  - cbn [snd calls record_call].
    rewrite store_writes_app, store_queries_app. simpl. rewrite app_nil_r.
    split; [exact Hw|]. right. rewrite Hq. reflexivity.
  - split; [exact Hw|left; exact Hq].
Qed.

Lemma is_digit_no_space c : is_digit c = true -> is_c_space c = false.
Proof.
  unfold is_digit, is_c_space. intros H. apply andb_true_iff in H as [H1 H2].
  apply N.leb_le in H1, H2.
  assert (E1 : (c <=? 13) = false) by (apply N.leb_gt; lia).
  assert (E2 : (c =? 32) = false) by (apply N.eqb_neq; lia).
  rewrite E1, E2, andb_false_r. reflexivity.
Qed.

Lemma digits_value_grouped s : forall acc n,
  digits_value acc s = Some n ->
  Forall (fun c => is_c_space c = false) s
  /\ forall b, s <> [] \/ b = true -> grouped_digits acc b s = Some n.
Proof.
  induction s as [|c r IH]; intros acc n H.
  - injection H as <-. split; [constructor|].
    intros b [Hne| ->]; [exfalso; apply Hne|]; reflexivity.
  - cbn [digits_value] in H. destruct (is_digit c) eqn:Hd; [|discriminate].
    destruct (IH _ _ H) as [Hf Hg]. split.
    + constructor; [apply is_digit_no_space; exact Hd|exact Hf].
    + intros b _. cbn [grouped_digits]. rewrite Hd. apply Hg. right. reflexivity.
Qed.

Lemma digit_run_grouped s n :
  digit_run s = Some n ->
  Forall (fun c => is_c_space c = false) s /\ grouped_digits 0%Z false s = Some n.
Proof.
  unfold digit_run. destruct s as [|c r]; [discriminate|].
  destruct (length (c :: r) <=? 640)%nat; [|discriminate].
  intros H. destruct (digits_value_grouped _ _ _ H) as [Hf Hg].
  split; [exact Hf|]. apply Hg. left. discriminate.
Qed.

Lemma skip_c_space_none s :
  Forall (fun c => is_c_space c = false) s -> skip_c_space s = s.
Proof. destruct 1 as [|c r Hc _]; [reflexivity|]. simpl. rewrite Hc. reflexivity. Qed.

Lemma int_strip_none s :
  Forall (fun c => is_c_space c = false) s ->
  rev (skip_c_space (rev (skip_c_space s))) = s.
Proof.
  intros H. rewrite (skip_c_space_none s H), skip_c_space_none.
  - apply rev_involutive.
  - apply List.Forall_rev. exact H.
Qed.

(** The two readings of a literal agree: a plain literal is a literal. *)
Lemma plain_int_ascii_int s n : plain_int s = Some n -> ascii_int s = Some n.
Proof.
  unfold plain_int, ascii_int. destruct s as [|c r]; [discriminate|].
  destruct (c =? 45) eqn:E45; [|destruct (c =? 43) eqn:E43].
  - apply N.eqb_eq in E45 as ->.
    destruct (digit_run r) as [m|] eqn:Hr; [|discriminate]. intros [= <-].
    destruct (digit_run_grouped r m Hr) as [Hf Hg].
    rewrite int_strip_none by (constructor; [reflexivity|exact Hf]).
    cbn [N.eqb Pos.eqb]. rewrite Hg. reflexivity.
  - apply N.eqb_eq in E43 as ->. intros Hr.
    destruct (digit_run_grouped r n Hr) as [Hf Hg].
    rewrite int_strip_none by (constructor; [reflexivity|exact Hf]).
    cbn [N.eqb Pos.eqb]. exact Hg.
  - intros Hr. destruct (digit_run_grouped (c :: r) n Hr) as [Hf Hg].
    rewrite int_strip_none by exact Hf. rewrite E45, E43. exact Hg.
Qed.

(** On ASCII text of at most 640 characters that is no literal, [int] raises
    the ValueError that shows the text. *)
Lemma py_int_invalid env s :
  is_ascii s = true -> (length s <=? 640)%nat = true -> ascii_int s = None ->
  py_int env s = inl (mkExn ValueError (invalid_literal s)).
Proof.
  intros Ha Hl Hn. unfold py_int.
  destruct (plain_int s) as [n|] eqn:Hp.
  - apply plain_int_ascii_int in Hp. congruence.
  - rewrite Ha, Hl, Hn. reflexivity.
Qed.

(** A limit that [int] does not accept is answered with status 500, not 400:
    the ValueError is caught by the handler, and neither the connections nor
    the store are touched. When the limit is ASCII text of at most 640
    characters that is no integer literal, the body carries the interpreter's
    message with the text of the limit in it. *)
Theorem invalid_limit_is_internal_error
  (env : Env) (params : gmap str str) (w : World) :
  (forall e, requested_limit env params = inl e ->
     http_get_sample_data env params w
     = (inr (mkHttpResponse 500
               (ErrorBody (lit "Internal server error: " ++ str_of_exn e) false
                          (utcnow env (calls w)))),
        record_call CallUtcnow w))
  /\ (forall s, params !! lit "limit" = Some s ->
       is_ascii s = true -> (length s <=? 640)%nat = true -> ascii_int s = None ->
       http_get_sample_data env params w
       = (inr (mkHttpResponse 500
                 (ErrorBody (lit "Internal server error: "
                             ++ lit "invalid literal for int() with base 10: "
                             ++ take 200 (ascii_repr s))
                            false (utcnow env (calls w)))),
          record_call CallUtcnow w)).
Proof.
  assert (H500 : forall e, requested_limit env params = inl e ->
     http_get_sample_data env params w
     = (inr (mkHttpResponse 500
               (ErrorBody (lit "Internal server error: " ++ str_of_exn e) false
                          (utcnow env (calls w)))),
        record_call CallUtcnow w)).
  { unfold requested_limit. intros e H.
    unfold http_get_sample_data, try_except, bind at 1. rewrite H. reflexivity. }
  split; [exact H500|].
  intros s Hs Ha Hl Hn.
  apply (H500 (mkExn ValueError (invalid_literal s))).
  unfold requested_limit. rewrite Hs. apply py_int_invalid; assumption.
Qed.

Lemma limit_ten_in_letters :
  http_get_sample_data DELETE_ENV BAD_LIMIT new_processor
  = (inr (mkHttpResponse 500
            (ErrorBody (lit "Internal server error: invalid literal for int() with base 10: 'ten'")
                       false (lit "T0"))),
     record_call CallUtcnow new_processor).
Proof.
  apply (proj2 (invalid_limit_is_internal_error DELETE_ENV BAD_LIMIT new_processor)
           (lit "ten")); reflexivity.
Defined.




Lemma upload_record_bound env i r acc w :
  exists acc' w' ds,
    upload_record env i r acc w = (inr acc', w')
    /\ store_writes (calls w') = store_writes (calls w) ++ ds
    /\ (fst acc' - fst acc <= Z.of_nat (length ds))%Z
    /\ (length ds <= length (List.filter has_required_fields [r]))%nat.
Proof.
  cbn [List.filter]. destruct (has_required_fields r) eqn:Hf.
  - apply has_required_fields_lookup in Hf as (m & s & v & Hm & Hs & Hv).
    rewrite (upload_record_eq env i r acc w m s v Hm Hs Hv).
    destruct (py_str_effect env v (record_call CallUuid4 w)) as [[_ Hw] _].
    destruct (same_store_record CallUuid4 w) as [_ Hw0]; [discriminate..|].
    destruct (py_str env v (record_call CallUuid4 w)) as [[e|value] w2];
      cbn [fst snd] in Hw.
    + eexists _, _, []. split; [reflexivity|]. rewrite app_nil_r.
      split; [congruence|]. simpl. split; lia.
    + cbv zeta.
      destruct (create_item env (calls w2 ++ [CallUtcnow]) _);
        (eexists _, _, [_]; split; [reflexivity|]);
        cbn [calls record_call fst snd]; rewrite !store_writes_app; simpl;
        rewrite app_nil_r, Hw, Hw0; (split; [reflexivity|]); simpl; split; lia.
  - rewrite (upload_record_missing env i r acc w Hf).
    eexists _, _, []. split; [reflexivity|]. rewrite app_nil_r.
    split; [reflexivity|]. simpl. split; lia.
Qed.

Lemma upload_loop_bound env records : forall i acc w,
  exists acc' w' ds,
    upload_loop env i records acc w = (inr acc', w')
    /\ store_writes (calls w') = store_writes (calls w) ++ ds
    /\ (fst acc' - fst acc <= Z.of_nat (length ds))%Z
    /\ (length ds <= valid_count records)%nat.
Proof.
  unfold valid_count.
  induction records as [|r rest IH]; intros i acc w.
  - exists acc, w, []. simpl. rewrite app_nil_r. repeat split; lia.
  - destruct (upload_record_bound env i r acc w) as (acc1 & w1 & ds1 & Hr & Hw1 & Hc1 & Hl1).
    destruct (IH (S i) acc1 w1) as (acc2 & w2 & ds2 & Hl & Hw2 & Hc2 & Hl2).
    exists acc2, w2, (ds1 ++ ds2). cbn [upload_loop]. unfold bind. rewrite Hr, Hl.
    split; [reflexivity|]. split; [rewrite Hw2, Hw1, app_assoc; reflexivity|].
    rewrite length_app. cbn [List.filter] in Hl1 |- *.
    destruct (has_required_fields r); simpl in Hl1 |- *; split; lia.
Qed.

(** In every result of an upload, each counted record stands for a call of
    [create_item]; a record without its required fields is never sent to the
    store; and the upload makes no query. *)
Theorem counted_uploads_were_sent
  (env : Env) (records : list record) (w : World) (res : UploadResult) (w' : World) :
  upload_medical_records env records w = (inr res, w') ->
  exists ds,
    store_writes (calls w') = store_writes (calls w) ++ ds
    /\ (uploaded_count res <= Z.of_nat (length ds))%Z
    /\ (length ds <= valid_count records)%nat
    /\ store_queries (calls w') = store_queries (calls w).
Proof.
  rewrite upload_medical_records_eq.
  destruct (ensure_initialized_effect env w) as [[Hq0 Hw0] _].
  destruct (_ensure_initialized env w) as [[e|u] w0]; [discriminate|].
  cbn [snd] in Hq0, Hw0. destruct (container w0); [|discriminate].
  destruct (upload_loop_bound env records 0%nat (0%Z, []) w0)
    as (acc & w1 & ds & Hl & Hw1 & Hc & Hlen).
  destruct (upload_loop_effect env records 0%nat (0%Z, []) w0)
    as (acc' & w1' & ds' & Hl' & _ & _ & Hq1 & _).
  rewrite Hl in Hl'. injection Hl' as <- <-. rewrite Hl.
  intros [= <- <-]. exists ds.
  cbn [fst snd uploaded_count calls record_call] in *.
  rewrite store_writes_app, store_queries_app. simpl. rewrite !app_nil_r.
  split; [congruence|]. split; [lia|]. split; [exact Hlen|congruence].
Qed.

Lemma counted_uploads_of_batch :
  exists ds,
    store_writes
      (calls (snd (upload_medical_records DELETE_ENV batch_one_missing new_processor)))
    = store_writes (calls new_processor) ++ ds
    /\ (2 <= Z.of_nat (length ds))%Z
    /\ (length ds <= valid_count batch_one_missing)%nat
    /\ store_queries
         (calls (snd (upload_medical_records DELETE_ENV batch_one_missing new_processor)))
       = store_queries (calls new_processor).
Proof.
  apply (counted_uploads_were_sent DELETE_ENV batch_one_missing new_processor
           (mkUploadResult 2 3 [missing_fields_error 1] true (lit "T9"))).
  vm_compute. reflexivity.
Defined.

(** ** The health probe *)

Lemma completion_prompts_app a b :
  completion_prompts (a ++ b) = completion_prompts a ++ completion_prompts b.
Proof. apply omap_app. Qed.

Lemma ensure_initialized_no_completion env w :
  completion_prompts (calls (snd (_ensure_initialized env w)))
  = completion_prompts (calls w).
Proof.
  rewrite ensure_initialized_eq. destruct (_initialized w); [reflexivity|].
  destruct (cosmos_setup env (calls w)).
  - cbn [snd calls record_call]. rewrite completion_prompts_app. simpl. apply app_nil_r.
  - destruct (openai_setup env (calls w ++ [CallCosmosSetup]));
      cbn [snd calls]; rewrite !completion_prompts_app; simpl; rewrite !app_nil_r;
      reflexivity.
Qed.

Lemma get_sample_data_no_completion env limit w :
  completion_prompts (calls (snd (get_sample_data env limit w)))
  = completion_prompts (calls w).
Proof.
  rewrite get_sample_data_eq.
  pose proof (ensure_initialized_no_completion env w) as H.
  destruct (_ensure_initialized env w) as [[e|u] w0]; cbn [snd] in H |- *; [exact H|].
  destruct (container w0); [|exact H].
  cbn [snd calls record_call]. rewrite completion_prompts_app. simpl.
  rewrite app_nil_r. exact H.
Qed.

Lemma http_health_check_eq env w :
  http_health_check env w =
  let cosmos_status :=
    match fst (get_sample_data env 1 w) with
    | inr _ => HEALTHY
    | inl e => lit "unhealthy: " ++ str_of_exn e
    end in
  let w1 := snd (get_sample_data env 1 w) in
  let openai_status :=
    match openai_client w1 with Some _ => HEALTHY | None => lit "not initialized" end in
  (inr (mkHealthResponse 200
          (HealthReport
             (mkHealthStatus
                (if str_eqb cosmos_status HEALTHY && str_eqb openai_status HEALTHY
                 then HEALTHY else lit "degraded")
                cosmos_status openai_status (utcnow env (calls w1))
                (lit "medical-data-text-to-sql")))),
   record_call CallUtcnow w1).
Proof.
  unfold http_health_check, try_except, bind.
  destruct (get_sample_data env 1 w) as [[e|rows] w1]; reflexivity.
Qed.

(** The health probe always answers with status 200, also when a service is
    down (the report then says degraded). It writes nothing, never calls the
    completion service, and sends the store at most the one-row sample query. *)
Theorem health_probe_always_answers_200 (env : Env) (w : World) :
  exists report w',
    http_health_check env w = (inr (mkHealthResponse 200 (HealthReport report)), w')
    /\ (health_status report = HEALTHY \/ health_status report = lit "degraded")
    /\ completion_prompts (calls w') = completion_prompts (calls w)
    /\ store_writes (calls w') = store_writes (calls w)
    /\ (store_queries (calls w') = store_queries (calls w)
        \/ store_queries (calls w') = store_queries (calls w) ++ [sample_query 1]).
Proof.
  rewrite http_health_check_eq. cbv zeta.
  eexists _, _. split; [reflexivity|]. cbn [health_status calls record_call].
  split; [destruct (_ && _); [left|right]; reflexivity|].
  rewrite completion_prompts_app, store_writes_app, store_queries_app. simpl.
  rewrite !app_nil_r. split; [apply get_sample_data_no_completion|].
  apply get_sample_data_effect.
Qed.

Lemma unhealthy_is_not_healthy m : str_eqb (lit "unhealthy: " ++ m) HEALTHY = false.
Proof. apply bool_decide_eq_false. intros H. discriminate H. Qed.

(** On a processor whose attributes are consistent, the probe reports healthy
    exactly when the one-row sample query succeeded; the state of the OpenAI
    client never changes the verdict, and an empty store is healthy. *)
Theorem health_is_the_sample_query (env : Env) (w : World) :
  wf_world w ->
  exists report w',
    http_health_check env w = (inr (mkHealthResponse 200 (HealthReport report)), w')
    /\ (health_status report = HEALTHY
        <-> exists rows, fst (get_sample_data env 1 w) = inr rows)
    /\ (health_cosmos_db report = HEALTHY -> health_azure_openai report = HEALTHY).
Proof.
  intros Hw. rewrite http_health_check_eq. cbv zeta.
  eexists _, _. split; [reflexivity|].
  cbn [health_status health_cosmos_db health_azure_openai].
  rewrite get_sample_data_eq.
  destruct (ensure_initialized_effect env w) as [_ Hc].
  destruct (Hc Hw) as [_ Hconn].
  destruct (_ensure_initialized env w) as [[e|u] w0]; cbn [fst snd] in Hconn |- *.
  - rewrite unhealthy_is_not_healthy. cbn [andb]. split.
    + split; [discriminate|intros [rows Hr]; discriminate].
    + intros H. exfalso. pose proof (unhealthy_is_not_healthy (str_of_exn e)) as Hn.
      apply bool_decide_eq_false in Hn. exact (Hn H).
  - destruct u. destruct (Hconn eq_refl) as (_ & Hcont & Hopen). rewrite Hcont.
    cbn [fst snd openai_client record_call]. rewrite Hopen.
    destruct (query_items env (calls w0) (sample_query 1)) as [e|rows].
    + rewrite unhealthy_is_not_healthy. cbn [andb]. split.
      * split; [discriminate|intros [rows Hr]; discriminate].
      * intros _. reflexivity.
    + split; [|intros _; reflexivity].
      split; [intros _; eauto|intros _; reflexivity].
Qed.

Lemma cosmos_down_is_degraded :
  exists report w',
    http_health_check COSMOS_DOWN_ENV new_processor
    = (inr (mkHealthResponse 200 (HealthReport report)), w')
    /\ (health_status report = HEALTHY
        <-> exists rows, fst (get_sample_data COSMOS_DOWN_ENV 1 new_processor) = inr rows)
    /\ (health_cosmos_db report = HEALTHY -> health_azure_openai report = HEALTHY).
Proof.
  apply (health_is_the_sample_query COSMOS_DOWN_ENV new_processor).
  exact wf_new_processor.
Defined.

(** ** The seeding at start-up *)

Lemma initialize_sample_data_eq env w :
  initialize_sample_data env w =
  match get_sample_data env 1 w with
  | (inl e, w1) => (inr tt, w1)
  | (inr (_ :: _), w1) => (inr tt, w1)
  | (inr [], w1) => (inr tt, snd (upload_medical_records env sample_records w1))
  end.
Proof.
  unfold initialize_sample_data, try_except, bind at 1.
  destruct (get_sample_data env 1 w) as [[e|[|r rows]] w1]; try reflexivity.
  unfold bind, ret.
  destruct (upload_medical_records env sample_records w1) as [[e|res] w2]; reflexivity.
Qed.

(** The seeding never raises, and it uploads nothing unless the one-row sample
    query came back empty: when the store already holds a row, or when the
    query fails, the function ends right after the query. *)
Theorem seeding_only_into_an_empty_store (env : Env) (w : World) :
  fst (initialize_sample_data env w) = inr tt
  /\ (forall e w1, get_sample_data env 1 w = (inl e, w1) ->
        initialize_sample_data env w = (inr tt, w1))
  /\ (forall r rows w1, get_sample_data env 1 w = (inr (r :: rows), w1) ->
        initialize_sample_data env w = (inr tt, w1)
        /\ store_writes (calls w1) = store_writes (calls w)).
Proof.
  rewrite initialize_sample_data_eq. split; [|split].
  - destruct (get_sample_data env 1 w) as [[e|[|r rows]] w1]; reflexivity.
  - intros e w1 ->. reflexivity.
  - intros r rows w1 H. pose proof (get_sample_data_effect env 1 w) as [Hw _].
    rewrite H in Hw |- *. split; [reflexivity|exact Hw].
Qed.

Lemma seeding_skips_a_filled_store :
  initialize_sample_data FENCED_ENV ready_processor
  = (inr tt, record_call (CallQueryItems (sample_query 1)) ready_processor)
  /\ store_writes (calls (record_call (CallQueryItems (sample_query 1)) ready_processor))
     = store_writes (calls ready_processor).
Proof.
  apply (proj2 (proj2 (seeding_only_into_an_empty_store FENCED_ENV ready_processor))
           row_1302_150 []).
  vm_compute. reflexivity.
Defined.

Lemma upload_record_sample env i t acc w :
  exists acc' w' d,
    upload_record env i (sample_record t) acc w = (inr acc', w')
    /\ store_writes (calls w') = store_writes (calls w) ++ [d]
    /\ triplet_of d = stored_triplet t.
Proof.
  rewrite (upload_record_eq env i (sample_record t) acc w
             (JInt (fst (fst t))) (JInt (snd (fst t))) (JStr (lit (snd t))));
    [|reflexivity..].
  cbn [py_str ret]. cbv zeta.
  destruct (create_item env _ _); (eexists _, _, _; split; [reflexivity|]);
    cbn [calls record_call]; rewrite !store_writes_app; simpl;
    rewrite !app_nil_r; split; reflexivity.
Qed.

Lemma upload_loop_samples env ts : forall i acc w,
  exists acc' w' ds,
    upload_loop env i (map sample_record ts) acc w = (inr acc', w')
    /\ store_writes (calls w') = store_writes (calls w) ++ ds
    /\ map triplet_of ds = map stored_triplet ts.
Proof.
  induction ts as [|t ts IH]; intros i acc w.
  - exists acc, w, []. simpl. rewrite app_nil_r. repeat split.
  - destruct (upload_record_sample env i t acc w) as (acc1 & w1 & d & Hr & Hw1 & Hd).
    destruct (IH (S i) acc1 w1) as (acc2 & w2 & ds & Hl & Hw2 & Hds).
    exists acc2, w2, (d :: ds). cbn [map upload_loop]. unfold bind. rewrite Hr, Hl.
    split; [reflexivity|]. split.
    + rewrite Hw2, Hw1, <- app_assoc. reflexivity.
    + rewrite Hd, Hds. reflexivity.
Qed.

(** On a connected processor whose store answers the sample query with no
    row, the seeding sends the thirteen demonstration records to the store, in
    the order of the list and with the listed MEDCode, Slot and Value, whether
    or not the store accepts each of them. *)
Theorem seeding_sends_the_demonstration_records (env : Env) (w : World) :
  connected w ->
  query_items env (calls w) (sample_query 1) = inr [] ->
  exists ds,
    store_writes (calls (snd (initialize_sample_data env w)))
    = store_writes (calls w) ++ ds
    /\ map triplet_of ds = map stored_triplet SAMPLE_TRIPLETS
    /\ length ds = 13%nat.
Proof.
  intros Hc Hq.
  rewrite initialize_sample_data_eq, (get_sample_data_connected env 1 w Hc), Hq.
  set (w1 := record_call (CallQueryItems (sample_query 1)) w).
  assert (Hc1 : connected w1) by (destruct Hc as (A & B & C); repeat split; assumption).
  assert (Hw1 : store_writes (calls w1) = store_writes (calls w)).
  { unfold w1. cbn [calls record_call]. rewrite store_writes_app. simpl. apply app_nil_r. }
  rewrite upload_medical_records_eq, (ensure_initialized_connected env w1 Hc1).
  destruct Hc1 as (_ & -> & _).
  destruct (upload_loop_samples env SAMPLE_TRIPLETS 0%nat (0%Z, []) w1)
    as (acc & w2 & ds & Hl & Hw2 & Hds).
  fold sample_records in Hl. rewrite Hl. exists ds.
  cbn [snd calls record_call]. rewrite store_writes_app. simpl. rewrite app_nil_r.
  split; [congruence|]. split; [exact Hds|].
  rewrite <- (length_map triplet_of), Hds, length_map. reflexivity.
Qed.

Lemma seeding_of_an_empty_store :
  exists ds,
    store_writes (calls (snd (initialize_sample_data EMPTY_STORE_ENV ready_processor)))
    = store_writes (calls ready_processor) ++ ds
    /\ map triplet_of ds = map stored_triplet SAMPLE_TRIPLETS
    /\ length ds = 13%nat.
Proof.
  apply (seeding_sends_the_demonstration_records EMPTY_STORE_ENV ready_processor).
  - exact connected_ready_processor.
  - reflexivity.
Defined.

(** ** The text-to-SQL endpoints *)

Lemma process_returns env query w :
  exists o w', process_natural_language_query env query w = (inr o, w').
Proof.
  rewrite process_cases. unfold failed_outcome.
  destruct (generate_sql_query env query w) as [[e|sql] w1]; [eauto|].
  destruct (execute_query env sql w1) as [[e|rows] w2]; eauto.
Qed.

Lemma strip_blank s : forallb isspace s = true -> strip s = [].
Proof. intros H. unfold strip. rewrite (lstrip_blank s H). reflexivity. Qed.

Lemma strip_nonempty s : strip s <> [] -> exists c r, s = c :: r.
Proof. destruct s as [|c r]; [intros H; exfalso; apply H; reflexivity|eauto]. Qed.

Lemma internal_error_eq env e w :
  internal_error env e w
  = (inr (mkResponse 500
            (PayloadInternalError (lit "Internal server error: " ++ str_of_raised e)
                                  false (utcnow env (calls w)))),
     record_call CallUtcnow w).
Proof. reflexivity. Qed.

Lemma field_is_missing_pure key body w :
  exists r, field_is_missing key body w = (r, w).
Proof.
  unfold field_is_missing. destruct (truthy body); cbn [negb]; [|eexists; reflexivity].
  unfold hbind, pure. destruct (py_in key body); eexists; reflexivity.
Qed.

Lemma query_is_empty_pure query w :
  exists r, query_is_empty query w = (r, w).
Proof.
  unfold query_is_empty. destruct (truthy query); cbn [negb]; [|eexists; reflexivity].
  unfold hbind, pure. destruct (py_strip query); eexists; reflexivity.
Qed.

Lemma field_is_missing_dict key fields w :
  field_is_missing key (JDict fields) w
  = (inr (match as_record fields !! key with Some _ => false | None => true end), w).
Proof.
  unfold field_is_missing. destruct fields as [|kv fields]; [reflexivity|].
  cbn [truthy negb]. unfold hbind, pure, py_in.
  destruct (as_record (kv :: fields) !! key); reflexivity.
Qed.

(** A request whose JSON object has no [query], or whose query is a text that
    is empty or all white space, is answered with status 400; neither a
    connection nor a collaborator is touched. *)
Theorem text_to_sql_refuses_a_blank_query (env : Env) (fields : list (str * json)) (w : World) :
  (as_record fields !! lit "query" = None ->
   http_text_to_sql env (inr (JDict fields)) w
   = (inr (mkResponse 400 (PayloadError (lit "Missing 'query' field in request body"))), w))
  /\ (forall s, as_record fields !! lit "query" = Some (JStr s) ->
      forallb isspace s = true ->
      http_text_to_sql env (inr (JDict fields)) w
      = (inr (mkResponse 400 (PayloadError (lit "Query cannot be empty"))), w)).
Proof.
  split.
  - intros Hq. unfold http_text_to_sql, htry_except, hbind at 1, pure.
    unfold hbind at 1. rewrite field_is_missing_dict, Hq. reflexivity.
  - intros s Hq Hs. unfold http_text_to_sql, htry_except, hbind at 1, pure.
    unfold hbind at 1. rewrite field_is_missing_dict, Hq.
    unfold hbind at 1, py_getitem. rewrite Hq.
    unfold hbind at 1, query_is_empty.
    destruct s as [|c r]; [reflexivity|].
    cbn [truthy negb]. unfold hbind at 1, pure, py_strip.
    rewrite (strip_blank _ Hs). reflexivity.
Qed.

Lemma white_space_query_is_refused :
  http_text_to_sql FENCED_ENV (inr (http_body (JStr BLANK_QUERY))) new_processor
  = (inr (mkResponse 400 (PayloadError (lit "Query cannot be empty"))), new_processor).
Proof.
  apply (proj2 (text_to_sql_refuses_a_blank_query
                  FENCED_ENV [(lit "query", JStr BLANK_QUERY)] new_processor)
           BLANK_QUERY).
  - reflexivity.
  - vm_compute. reflexivity.
Defined.

(** A request whose query is a text with something in it runs the pipeline on
    the stripped text; the body is the pipeline's outcome, and the status is
    200 when the outcome is a success and 500 when it is a failure. *)
Theorem text_to_sql_answers_with_the_outcome
  (env : Env) (fields : list (str * json)) (s : str) (w : World) :
  as_record fields !! lit "query" = Some (JStr s) ->
  strip s <> [] ->
  exists o w',
    process_natural_language_query env (strip s) w = (inr o, w')
    /\ http_text_to_sql env (inr (JDict fields)) w
       = (inr (mkResponse (if success o then 200 else 500)%Z (PayloadOutcome o)), w').
Proof.
  intros Hq Hs. destruct (process_returns env (strip s) w) as (o & w' & Hp).
  exists o, w'. split; [exact Hp|].
  destruct (strip_nonempty s Hs) as (c & r & ->).
  unfold http_text_to_sql, htry_except, hbind at 1, pure.
  unfold hbind at 1. rewrite field_is_missing_dict, Hq.
  unfold hbind at 1, py_getitem. rewrite Hq.
  unfold hbind at 1, query_is_empty. cbn [truthy negb].
  unfold hbind at 1, pure, py_strip.
  destruct (strip (c :: r)) as [|c' r'] eqn:Hstrip; [exfalso; apply Hs; reflexivity|].
  cbn [truthy negb hret]. unfold hbind at 1. unfold hbind, lift. rewrite Hp.
  reflexivity.
Qed.

Lemma fenced_select_over_http :
  exists o w',
    process_natural_language_query FENCED_ENV (strip (lit " Show me ")) new_processor
    = (inr o, w')
    /\ http_text_to_sql FENCED_ENV (inr (http_body (JStr (lit " Show me ")))) new_processor
       = (inr (mkResponse (if success o then 200 else 500)%Z (PayloadOutcome o)), w').
Proof.
  apply (text_to_sql_answers_with_the_outcome
           FENCED_ENV [(lit "query", JStr (lit " Show me "))] (lit " Show me ")
           new_processor).
  - reflexivity.
  - vm_compute. discriminate.
Defined.

(** Whatever the request body is, not JSON at all, not an object, or an object
    with a query that is no text, [http_text_to_sql] returns a response and
    lets no exception out: 200 with a successful outcome, 400 with nothing
    touched, or 500 with the failed outcome or the error's text. *)
Theorem text_to_sql_always_answers (env : Env) (get_json : raised + json) (w : World) :
  exists resp w',
    http_text_to_sql env get_json w = (inr resp, w')
    /\ text_to_sql_response w resp w'.
Proof.
  assert (Hfail : forall e w0, exists resp w',
    internal_error env e w0 = (inr resp, w') /\ text_to_sql_response w resp w').
  { intros e w0. rewrite internal_error_eq. eexists _, _. split; [reflexivity|].
    right. right. split; [reflexivity|]. right. eauto. }
  unfold http_text_to_sql, htry_except, hbind at 1, pure.
  destruct get_json as [e|body]; [apply Hfail|].
  unfold hbind at 1.
  destruct (field_is_missing_pure (lit "query") body w) as [missing ->].
  destruct missing as [e|[|]]; [apply Hfail| |].
  { eexists _, _. split; [reflexivity|]. right. left. simpl. eauto. }
  unfold hbind at 1.
  destruct (py_getitem body (lit "query")) as [e|query]; [apply Hfail|].
  unfold hbind at 1.
  destruct (query_is_empty_pure query w) as [empty ->].
  destruct empty as [e|[|]]; [apply Hfail| |].
  { eexists _, _. split; [reflexivity|]. right. left. simpl. eauto. }
  unfold hbind at 1, pure.
  destruct (py_strip query) as [e|stripped]; [apply Hfail|].
  unfold hbind, lift.
  destruct (process_returns env stripped w) as (o & w' & ->).
  eexists _, _. split; [reflexivity|].
  destruct (success o) eqn:Hs.
  - left. simpl. eauto.
  - right. right. simpl. eauto.
Qed.

(** The tool request whose query is empty or all white space, or that has no
    arguments or no query at all, is answered with the error answer; neither a
    connection nor a collaborator is touched. *)
Theorem mcp_refuses_a_blank_query
  (env : Env) (req_data args : json) (s : str) (w : World) :
  py_get req_data (lit "arguments") (JDict []) = inr args ->
  py_get args (lit "query") (JStr []) = inr (JStr s) ->
  forallb isspace s = true ->
  mcp_text_to_sql env (inr req_data) w
  = (inr (McpError (lit "Query parameter is required and cannot be empty") false), w).
Proof.
  intros Ha Hq Hs. unfold mcp_text_to_sql, htry_except, hbind at 1, pure.
  unfold hbind at 1. rewrite Ha. unfold hbind at 1. rewrite Hq.
  unfold hbind at 1, py_strip. rewrite (strip_blank s Hs). reflexivity.
Qed.

Lemma tool_request_without_arguments :
  mcp_text_to_sql FENCED_ENV (inr (JDict [])) new_processor
  = (inr (McpError (lit "Query parameter is required and cannot be empty") false),
     new_processor).
Proof.
  apply (mcp_refuses_a_blank_query FENCED_ENV (JDict []) (JDict []) [] new_processor);
    reflexivity.
Defined.

Lemma process_success_shape env query w o w' :
  process_natural_language_query env query w = (inr o, w') ->
  success o = true ->
  exists sql rows at_time,
    o = mkOutcome query (Some sql) (Some rows) (Z.of_nat (length rows)) true None at_time.
Proof.
  rewrite process_cases. unfold failed_outcome.
  destruct (generate_sql_query env query w) as [[e|sql] w1];
    [intros [= <- _]; discriminate|].
  destruct (execute_query env sql w1) as [[e|rows] w2];
    [intros [= <- _]; discriminate|].
  intros [= <- _] _. eauto.
Qed.

Lemma py_str_returns env v w :
  (forall h x, exists t, builtin_str env h x = inr t) ->
  exists t w', py_str env v w = (inr t, w').
Proof.
  intros Hstr. unfold py_str, call, ret.
  destruct v; eauto;
    match goal with
    | |- context [builtin_str env ?h ?x] => destruct (Hstr h x) as [t Ht]; rewrite Ht; eauto
    end.
Qed.

Lemma format_field_dict env fields key w :
  (forall h x, exists t, builtin_str env h x = inr t) ->
  exists t w', format_field env (JDict fields) key w = (inr t, w').
Proof.
  intros Hstr. unfold format_field, hbind, pure, py_get, lift.
  destruct (py_str_returns env
              (match as_record fields !! key with Some x => x | None => JStr (lit "N/A") end)
              w Hstr) as (t & w' & ->).
  eauto.
Qed.

Lemma summary_line_dict env i fields w :
  (forall h x, exists t, builtin_str env h x = inr t) ->
  exists line w', summary_line env i (JDict fields) w = (inr line, w').
Proof.
  intros Hstr. unfold summary_line, hbind.
  destruct (format_field_dict env fields (lit "MEDCode") w Hstr) as (m & w1 & ->).
  destruct (format_field_dict env fields (lit "Slot") w1 Hstr) as (s & w2 & ->).
  destruct (format_field_dict env fields (lit "Value") w2 Hstr) as (v & w3 & ->).
  unfold hret. eauto.
Qed.

Lemma summary_lines_dicts env rows :
  (forall h x, exists t, builtin_str env h x = inr t) ->
  Forall (fun x => is_dict x = true) rows ->
  forall i w, exists lines w', summary_lines env i rows w = (inr lines, w').
Proof.
  intros Hstr. induction 1 as [|x rest Hx _ IH]; intros i w.
  - unfold summary_lines, hret. eauto.
  - destruct x; try discriminate Hx. cbn [summary_lines]. unfold hbind.
    destruct (summary_line_dict env i fields w Hstr) as (line & w1 & ->).
    destruct (IH (S i) w1) as (more & w2 & ->). unfold hret. eauto.
Qed.

(** A row that is no object has no [get]: its line cannot be built. *)
Lemma summary_line_no_dict env i x w :
  is_dict x = false ->
  summary_line env i x w = (inl (no_attribute x "get"), w).
Proof. intros Hx. destruct x; try discriminate Hx; reflexivity. Qed.

(** The tool request with a query that has something in it runs the same
    pipeline on the stripped text as the HTTP endpoint does. A failed outcome
    is returned as it is, without a summary. A successful outcome carries its
    rows and their number; it is returned with its summary: the three head
    lines and, with no row, the line that nothing was found, or else a line
    for each of the first five rows, which is built whenever these rows are
    objects and [str] converts their fields. When the first row is no object
    the request ends in the error answer that names the missing [get]. *)
Theorem mcp_answers_with_the_outcome
  (env : Env) (req_data args : json) (s : str) (w : World) :
  py_get req_data (lit "arguments") (JDict []) = inr args ->
  py_get args (lit "query") (JStr []) = inr (JStr s) ->
  strip s <> [] ->
  exists o w',
    process_natural_language_query env (strip s) w = (inr o, w')
    /\ (success o = false ->
        mcp_text_to_sql env (inr req_data) w = (inr (McpResult o None), w'))
    /\ (success o = true ->
        exists rows,
          results o = Some rows /\ row_count o = Z.of_nat (length rows)
          /\ (rows = [] ->
              mcp_text_to_sql env (inr req_data) w
              = (inr (McpResult o (Some (summary_head o
                                         ++ lit "No matching records found." ++ [NL]))),
                 w'))
          /\ (rows <> [] ->
              Forall (fun x => is_dict x = true) (take 5 rows) ->
              (forall h x, exists t, builtin_str env h x = inr t) ->
              exists lines w'',
                summary_lines env 0 (take 5 rows) w' = (inr lines, w'')
                /\ mcp_text_to_sql env (inr req_data) w
                   = (inr (McpResult o
                             (Some (summary_head o ++ lit "Sample results:" ++ [NL]
                                    ++ lines
                                    ++ (if (5 <? row_count o)%Z
                                        then lit "... and " ++ str_of_Z (row_count o - 5)
                                             ++ lit " more records" ++ [NL]
                                        else [])))),
                      w''))
          /\ (forall x rest, rows = x :: rest -> is_dict x = false ->
              mcp_text_to_sql env (inr req_data) w
              = (inr (McpFailure (lit "Error processing query: "
                                  ++ str_of_raised (no_attribute x "get"))
                                 false (utcnow env (calls w'))),
                 record_call CallUtcnow w'))).
Proof.
  intros Ha Hq Hs. destruct (process_returns env (strip s) w) as (o & w' & Hp).
  exists o, w'. split; [exact Hp|].
  assert (Hrun : mcp_text_to_sql env (inr req_data) w =
    htry_except
      (if success o
       then summary <~ mcp_summary env o ;; hret (McpResult o (Some summary))
       else hret (McpResult o None))
      (fun e =>
       at_time <~ lift (now env) ;;
       hret (McpFailure (lit "Error processing query: " ++ str_of_raised e) false at_time))
      w').
  { unfold mcp_text_to_sql, htry_except, hbind at 1, pure.
    unfold hbind at 1. rewrite Ha. unfold hbind at 1. rewrite Hq.
    unfold hbind at 1, py_strip.
    destruct (strip s) as [|c r] eqn:Hstrip; [exfalso; apply Hs; reflexivity|].
    cbn [truthy negb]. unfold hbind at 1, lift. rewrite Hp. reflexivity. }
  rewrite Hrun. split.
  - intros ->. reflexivity.
  - intros Hok. destruct (process_success_shape _ _ _ _ _ Hp Hok) as (sql & rows & t & Ho).
    exists rows. rewrite Ho. cbn [results row_count success].
    split; [reflexivity|]. split; [reflexivity|].
    unfold htry_except, hbind at 1, mcp_summary. cbv zeta. cbn [results row_count].
    split; [|split].
    + intros ->. reflexivity.
    + intros Hne Hdicts Hstr.
      destruct (summary_lines_dicts env (take 5 rows) Hstr Hdicts 0%nat w')
        as (lines & w'' & Hlines).
      exists lines, w''. split; [exact Hlines|].
      assert (Hpos : (0 <? Z.of_nat (length rows))%Z = true).
      { apply Z.ltb_lt. destruct rows; [exfalso; apply Hne; reflexivity|simpl; lia]. }
      rewrite Hpos. unfold hbind, pure. rewrite Hlines. reflexivity.
    + intros x rest -> Hx.
      assert (Hpos : (0 <? Z.of_nat (length (x :: rest)))%Z = true).
      { apply Z.ltb_lt. simpl. lia. }
      rewrite Hpos. unfold hbind, pure. cbn [take summary_lines]. unfold hbind.
      rewrite (summary_line_no_dict env 0 x w' Hx). reflexivity.
Qed.

(** The fenced SELECT over the tool: the outcome is a success with the one
    row of the store, and the summary has the line of that row. *)
Lemma fenced_select_over_mcp :
  (exists o w',
    process_natural_language_query FENCED_ENV (strip SHOW_1302) new_processor = (inr o, w')
    /\ (success o = false ->
        mcp_text_to_sql FENCED_ENV (inr (mcp_request (JStr SHOW_1302))) new_processor
        = (inr (McpResult o None), w'))
    /\ (success o = true ->
        exists rows,
          results o = Some rows /\ row_count o = Z.of_nat (length rows)
          /\ (rows = [] ->
              mcp_text_to_sql FENCED_ENV (inr (mcp_request (JStr SHOW_1302))) new_processor
              = (inr (McpResult o (Some (summary_head o
                                         ++ lit "No matching records found." ++ [NL]))),
                 w'))
          /\ (rows <> [] ->
              Forall (fun x => is_dict x = true) (take 5 rows) ->
              (forall h x, exists t, builtin_str FENCED_ENV h x = inr t) ->
              exists lines w'',
                summary_lines FENCED_ENV 0 (take 5 rows) w' = (inr lines, w'')
                /\ mcp_text_to_sql FENCED_ENV (inr (mcp_request (JStr SHOW_1302)))
                                   new_processor
                   = (inr (McpResult o
                             (Some (summary_head o ++ lit "Sample results:" ++ [NL]
                                    ++ lines
                                    ++ (if (5 <? row_count o)%Z
                                        then lit "... and " ++ str_of_Z (row_count o - 5)
                                             ++ lit " more records" ++ [NL]
                                        else [])))),
                      w''))
          /\ (forall x rest, rows = x :: rest -> is_dict x = false ->
              mcp_text_to_sql FENCED_ENV (inr (mcp_request (JStr SHOW_1302))) new_processor
              = (inr (McpFailure (lit "Error processing query: "
                                  ++ str_of_raised (no_attribute x "get"))
                                 false (utcnow FENCED_ENV (calls w'))),
                 record_call CallUtcnow w'))))
  /\ fst (mcp_text_to_sql FENCED_ENV (inr (mcp_request (JStr SHOW_1302))) new_processor)
     = inr (McpResult
              (mkOutcome SHOW_1302 (Some SELECT_1302) (Some [row_1302_150]) 1%Z true None
                         (lit "T4"))
              (Some (lit "Query: Show me all records for MEDCode 1302" ++ [NL]
                     ++ lit "Generated SQL: SELECT * FROM c WHERE c.MEDCode = 1302" ++ [NL]
                     ++ lit "Results: 1 records found" ++ [NL; NL]
                     ++ lit "Sample results:" ++ [NL]
                     ++ lit "Record 1: MEDCode=1302, Slot=150, Value=19928" ++ [NL]))).
Proof.
  split.
  - apply (mcp_answers_with_the_outcome
             FENCED_ENV (mcp_request (JStr SHOW_1302))
             (JDict [(lit "query", JStr SHOW_1302)]) SHOW_1302 new_processor).
    + reflexivity.
    + reflexivity.
    + vm_compute. discriminate.
  - vm_compute. reflexivity.
Defined.

(** Rows that are numbers, as a query selecting values returns them: the
    pipeline succeeds, and the tool answers with the error of the summary. *)
Lemma values_over_mcp :
  fst (mcp_text_to_sql VALUES_ENV (inr (mcp_request (JStr SHOW_1302))) new_processor)
  = inr (McpFailure (lit "Error processing query: 'int' object has no attribute 'get'")
                    false (lit "T5")).
Proof. vm_compute. reflexivity. Qed.

Lemma only_str_calls_refl n w : only_str_calls n w w.
Proof. exists []. rewrite app_nil_r. repeat split; [constructor|simpl; lia]. Qed.

Lemma only_str_calls_trans n m w1 w2 w3 :
  only_str_calls n w1 w2 -> only_str_calls m w2 w3 -> only_str_calls (n + m) w1 w3.
Proof.
  intros (a & Ha & Fa & La) (b & Hb & Fb & Lb). exists (a ++ b).
  rewrite Hb, Ha, <- app_assoc. split; [reflexivity|].
  split; [apply Forall_app; split; assumption|rewrite length_app; lia].
Qed.

Lemma only_str_calls_weaken n m w w' :
  (n <= m)%nat -> only_str_calls n w w' -> only_str_calls m w w'.
Proof. intros Hnm (a & Ha & Fa & La). exists a. repeat split; [assumption..|lia]. Qed.

Lemma format_field_calls env r key w :
  only_str_calls 1 w (snd (format_field env r key w)).
Proof.
  unfold format_field, hbind, pure.
  destruct (py_get r key (JStr (lit "N/A"))) as [e|v]; [apply only_str_calls_refl|].
  unfold lift, py_str.
  destruct v;
    try (cbn [ret snd]; apply only_str_calls_refl);
    unfold call; destruct (builtin_str env (calls w) _); cbn [snd];
    (eexists [_]; split; [reflexivity|]; split; [|simpl; lia];
     constructor; [eauto|constructor]).
Qed.

Lemma summary_line_calls env i r w :
  only_str_calls 3 w (snd (summary_line env i r w)).
Proof.
  unfold summary_line, hbind at 1.
  pose proof (format_field_calls env r (lit "MEDCode") w) as H1.
  destruct (format_field env r (lit "MEDCode") w) as [[e|medcode] w1]; cbn [snd] in H1 |- *.
  { eapply only_str_calls_weaken; [|exact H1]. lia. }
  unfold hbind at 1.
  pose proof (format_field_calls env r (lit "Slot") w1) as H2.
  destruct (format_field env r (lit "Slot") w1) as [[e|slot] w2]; cbn [snd] in H2 |- *.
  { eapply only_str_calls_weaken; [|exact (only_str_calls_trans _ _ _ _ _ H1 H2)]. lia. }
  unfold hbind at 1.
  pose proof (format_field_calls env r (lit "Value") w2) as H3.
  destruct (format_field env r (lit "Value") w2) as [[e|value] w3]; cbn [snd] in H3 |- *;
    exact (only_str_calls_trans _ _ _ _ _ (only_str_calls_trans _ _ _ _ _ H1 H2) H3).
Qed.

Lemma summary_lines_calls env rows : forall i w,
  only_str_calls (3 * length rows) w (snd (summary_lines env i rows w)).
Proof.
  induction rows as [|r rest IH]; intros i w; [apply only_str_calls_refl|].
  cbn [summary_lines]. unfold hbind at 1.
  pose proof (summary_line_calls env i r w) as H1.
  destruct (summary_line env i r w) as [[e|line] w1]; cbn [snd] in H1 |- *.
  { eapply only_str_calls_weaken; [|exact H1]. simpl. lia. }
  unfold hbind at 1. pose proof (IH (S i) w1) as H2.
  destruct (summary_lines env (S i) rest w1) as [[e|more] w2]; cbn [snd] in H2 |- *;
    (eapply only_str_calls_weaken; [|exact (only_str_calls_trans _ _ _ _ _ H1 H2)]);
    simpl; lia.
Qed.

(** The summary looks at no more than the first five rows: however many rows
    the outcome carries, building it makes at most fifteen conversions by
    [str] and no other call. *)
Theorem summary_formats_at_most_five_rows (env : Env) (result : Outcome) (w : World) :
  only_str_calls 15 w (snd (mcp_summary env result w)).
Proof.
  unfold mcp_summary. cbv zeta.
  destruct (0 <? row_count result)%Z; [|apply only_str_calls_refl].
  unfold hbind at 1, pure.
  destruct (results result) as [rows|]; [|apply only_str_calls_refl].
  unfold hbind at 1.
  pose proof (summary_lines_calls env (take 5 rows) 0%nat w) as Hl.
  assert (Hlen : (3 * length (take 5 rows) <= 15)%nat).
  { rewrite length_take. lia. }
  destruct (summary_lines env 0 (take 5 rows) w) as [[e|lines] w1]; cbn [snd] in Hl |- *;
    (eapply only_str_calls_weaken; [exact Hlen|exact Hl]).
Qed.

(** ** The upload endpoint *)

Lemma all_in_dict fields :
  all_in REQUIRED_FIELDS (JDict fields) = inr (has_required_fields (as_record fields)).
Proof.
  unfold has_required_fields, REQUIRED_FIELDS. cbn [all_in forallb py_in].
  destruct (as_record fields !! lit "MEDCode"); [|reflexivity].
  destruct (as_record fields !! lit "Slot"); [|reflexivity].
  destruct (as_record fields !! lit "Value"); reflexivity.
Qed.

(** On a dict, the turn of the loop is the one of [upload_record]. *)
Lemma upload_item_dict env i fields acc w :
  upload_item env i (JDict fields) acc w
  = lift (upload_record env i (as_record fields) acc) w.
Proof.
  unfold upload_item, htry_except, hbind at 1, pure. rewrite all_in_dict.
  destruct (has_required_fields (as_record fields)) eqn:Hf.
  - apply has_required_fields_lookup in Hf as (m & s & v & Hm & Hs & Hv).
    unfold lift. rewrite (upload_record_eq env i _ acc w m s v Hm Hs Hv).
    cbn [negb]. unfold hbind at 1, call_total, call.
    unfold hbind at 1, py_getitem. rewrite Hm.
    unfold hbind at 1. rewrite Hs. unfold hbind at 1. rewrite Hv.
    unfold hbind at 1.
    destruct (py_str env v (record_call CallUuid4 w)) as [[e|value] w2]; [reflexivity|].
    unfold hbind at 1, now, call_total, call.
    unfold hbind, call_unit, call. cbn [calls record_call]. cbv zeta.
    destruct (create_item env (calls w2 ++ [CallUtcnow]) _); reflexivity.
  - unfold lift. rewrite (upload_record_missing env i _ acc w Hf). reflexivity.
Qed.

Lemma upload_items_dicts env dicts : forall i acc w,
  upload_items env i (map JDict dicts) acc w
  = lift (upload_loop env i (map as_record dicts) acc) w.
Proof.
  induction dicts as [|fields rest IH]; intros i acc w; [reflexivity|].
  cbn [map upload_items upload_loop]. unfold hbind. rewrite upload_item_dict.
  unfold lift at 1 2, bind.
  destruct (upload_record env i (as_record fields) acc w) as [[e|acc'] w1]; [reflexivity|].
  apply IH.
Qed.

(** When every element of the array is an object, the upload made by the
    endpoint is the upload of the corresponding records: same result, same
    calls. *)
Theorem upload_of_objects_is_the_upload_of_records
  (env : Env) (dicts : list (list (str * json))) (w : World) :
  upload_medical_records_any env (map JDict dicts) w
  = lift (upload_medical_records env (map as_record dicts)) w.
Proof.
  unfold lift at 1. rewrite upload_medical_records_eq.
  unfold upload_medical_records_any, hbind at 1, lift at 1.
  destruct (_ensure_initialized env w) as [[e|u] w0]; [reflexivity|].
  unfold hbind at 1, lift at 1, get_world.
  destruct (container w0); [|reflexivity].
  unfold hbind at 1. rewrite upload_items_dicts. unfold lift at 1.
  destruct (upload_loop env 0 (map as_record dicts) (0%Z, []) w0) as [[e|acc] w1];
    [reflexivity|].
  rewrite !length_map. reflexivity.
Qed.

(** An element that is no object never reaches the store: the turn of the
    loop ends with one more error and the same count. *)
Lemma upload_item_not_dict env i x acc w :
  is_dict x = false ->
  exists message w',
    upload_item env i x acc w = (inr (fst acc, snd acc ++ [message]), w')
    /\ store_writes (calls w') = store_writes (calls w)
    /\ store_queries (calls w') = store_queries (calls w).
Proof.
  assert (Hu : store_writes (calls (record_call CallUuid4 w)) = store_writes (calls w)
               /\ store_queries (calls (record_call CallUuid4 w)) = store_queries (calls w)).
  { destruct (same_store_record CallUuid4 w) as [A B]; [discriminate..|]. split; assumption. }
  intros Hx. destruct x as [| | | |s|items|]; try discriminate Hx;
    unfold upload_item, htry_except, hbind at 1, pure, REQUIRED_FIELDS;
    cbn [all_in py_in].
  1-4: eexists _, _; split; [reflexivity|split; reflexivity].
  - destruct (occursb (lit "MEDCode") s);
      [destruct (occursb (lit "Slot") s); [destruct (occursb (lit "Value") s)|]|];
      eexists _, _; (split; [reflexivity|]);
      first [exact Hu | split; reflexivity].
  - destruct (existsb _ items);
      [destruct (existsb _ items); [destruct (existsb _ items)|]|];
      eexists _, _; (split; [reflexivity|]);
      first [exact Hu | split; reflexivity].
Qed.

Lemma upload_item_returns env i x acc w :
  exists acc' w',
    upload_item env i x acc w = (inr acc', w')
    /\ ((fst acc' = (fst acc + 1)%Z /\ snd acc' = snd acc)
        \/ (fst acc' = fst acc /\ exists msg, snd acc' = snd acc ++ [msg])).
Proof.
  destruct (is_dict x) eqn:Hx.
  - destruct x; try discriminate Hx. rewrite upload_item_dict. unfold lift.
    destruct (upload_record_effect env i (as_record fields) acc w)
      as (acc' & w' & ds & -> & Hc & _). eauto.
  - destruct (upload_item_not_dict env i x acc w Hx) as (msg & w' & -> & _).
    eexists _, _. split; [reflexivity|]. right. simpl. eauto.
Qed.

Lemma upload_items_returns env items : forall i acc w,
  exists acc' w',
    upload_items env i items acc w = (inr acc', w')
    /\ (fst acc <= fst acc')%Z
    /\ (fst acc' - fst acc + Z.of_nat (length (snd acc')) - Z.of_nat (length (snd acc))
        = Z.of_nat (length items))%Z.
Proof.
  induction items as [|x rest IH]; intros i acc w.
  - exists acc, w. simpl. repeat split; lia.
  - destruct (upload_item_returns env i x acc w) as (acc1 & w1 & Hr & Hc).
    destruct (IH (S i) acc1 w1) as (acc2 & w2 & Hl & Hle & Hsum).
    exists acc2, w2. cbn [upload_items]. unfold hbind. rewrite Hr, Hl.
    split; [reflexivity|].
    destruct Hc as [[H1 H2]|[H1 [msg H2]]]; rewrite H1, H2 in *;
      [|rewrite length_app in *; simpl in *]; simpl length; split; lia.
Qed.

Lemma upload_items_no_dict env items : forall i acc w,
  forallb (fun x => negb (is_dict x)) items = true ->
  exists acc' w',
    upload_items env i items acc w = (inr acc', w')
    /\ fst acc' = fst acc
    /\ length (snd acc') = (length (snd acc) + length items)%nat
    /\ store_writes (calls w') = store_writes (calls w).
Proof.
  induction items as [|x rest IH]; intros i acc w Hall.
  - exists acc, w. simpl. repeat split; lia.
  - cbn [forallb] in Hall. apply andb_true_iff in Hall as [Hx Hrest].
    apply negb_true_iff in Hx.
    destruct (upload_item_not_dict env i x acc w Hx) as (msg & w1 & Hr & Hw1 & _).
    destruct (IH (S i) (fst acc, snd acc ++ [msg]) w1 Hrest) as (acc2 & w2 & Hl & H1 & H2 & Hw2).
    exists acc2, w2. cbn [upload_items]. unfold hbind. rewrite Hr, Hl.
    split; [reflexivity|]. cbn [fst snd] in H1, H2. rewrite length_app in H2.
    simpl in H2 |- *. repeat split; [exact H1|lia|congruence].
Qed.

(** A batch none of whose elements is an object (numbers, texts, lists, null)
    is processed to its end: nothing is uploaded or written, every element
    gets its error, and the result reports no success. *)
Theorem batch_without_objects_uploads_nothing
  (env : Env) (items : list json) (w : World) :
  connected w ->
  forallb (fun x => negb (is_dict x)) items = true ->
  exists res w',
    upload_medical_records_any env items w = (inr res, w')
    /\ uploaded_count res = 0%Z /\ upload_success res = false
    /\ total_records res = Z.of_nat (length items)
    /\ length (errors res) = length items
    /\ store_writes (calls w') = store_writes (calls w).
Proof.
  intros Hc Hall.
  unfold upload_medical_records_any, hbind at 1, lift at 1.
  rewrite (ensure_initialized_connected env w Hc).
  unfold hbind at 1, lift at 1, get_world. destruct Hc as (_ & -> & _).
  destruct (upload_items_no_dict env items 0%nat (0%Z, []) w Hall)
    as (acc & w1 & Hl & H1 & H2 & Hw1).
  unfold hbind at 1. rewrite Hl. cbn [fst snd] in H1, H2.
  eexists _, _. split; [reflexivity|].
  cbn [uploaded_count upload_success total_records errors calls record_call].
  rewrite H1, store_writes_app. simpl. rewrite app_nil_r.
  repeat split; [exact H2|exact Hw1].
Qed.

Lemma batch_of_numbers :
  exists res w',
    upload_medical_records_any FENCED_ENV [JInt 7; JNull] ready_processor = (inr res, w')
    /\ uploaded_count res = 0%Z /\ upload_success res = false
    /\ total_records res = Z.of_nat (length [JInt 7; JNull])
    /\ length (errors res) = length [JInt 7; JNull]
    /\ store_writes (calls w') = store_writes (calls ready_processor).
Proof.
  apply (batch_without_objects_uploads_nothing FENCED_ENV [JInt 7; JNull] ready_processor).
  - exact connected_ready_processor.
  - reflexivity.
Defined.

Lemma upload_medical_records_any_cases env items w :
  exists w',
    (exists e, upload_medical_records_any env items w = (inl e, w'))
    \/ (exists res,
          upload_medical_records_any env items w = (inr res, w')
          /\ total_records res = Z.of_nat (length items)
          /\ (uploaded_count res + Z.of_nat (length (errors res)))%Z = total_records res
          /\ upload_success res = (0 <? uploaded_count res)%Z).
Proof.
  destruct (upload_medical_records_any env items w) as [[e|res] w'] eqn:Hu;
    [eexists; left; eauto|].
  exists w'. right. exists res. split; [reflexivity|]. revert Hu.
  unfold upload_medical_records_any, hbind at 1, lift at 1.
  destruct (_ensure_initialized env w) as [[e|[]] w0]; [discriminate|].
  unfold hbind at 1, lift at 1, get_world.
  destruct (container w0); [|discriminate].
  destruct (upload_items_returns env items 0%nat (0%Z, []) w0)
    as (acc & w1 & Hl & Hle & Hsum).
  unfold hbind at 1. rewrite Hl. cbn [fst snd length] in Hle, Hsum.
  intros Hu. injection Hu as <- _.
  cbn [uploaded_count upload_success total_records errors].
  repeat split. lia.
Qed.



(** Whatever the request is, not JSON at all, no object, an array whose
    elements are no objects, [http_upload_medical_data] returns a response
    and lets no exception out: 200 with an upload result whose counts add up
    to the length of the array, 400 with nothing touched, or 500 with the
    error's text and no success. *)
Theorem upload_endpoint_always_answers
  (env : Env) (get_json : raised + json) (w : World) :
  exists resp w',
    http_upload_medical_data env get_json w = (inr resp, w')
    /\ ((response_status resp = 200%Z
         /\ exists res, response_payload resp = PayloadUpload res
              /\ (uploaded_count res + Z.of_nat (length (errors res)))%Z = total_records res
              /\ upload_success res = (0 <? uploaded_count res)%Z)
        \/ (response_status resp = 400%Z
            /\ w' = w /\ exists msg, response_payload resp = PayloadError msg)
        \/ (response_status resp = 500%Z
            /\ exists msg at_time,
                 response_payload resp = PayloadInternalError msg false at_time)).
Proof.
  assert (Hfail : forall e w0, exists resp w',
    internal_error env e w0 = (inr resp, w')
    /\ ((response_status resp = 200%Z
         /\ exists res, response_payload resp = PayloadUpload res
              /\ (uploaded_count res + Z.of_nat (length (errors res)))%Z = total_records res
              /\ upload_success res = (0 <? uploaded_count res)%Z)
        \/ (response_status resp = 400%Z
            /\ w' = w /\ exists msg, response_payload resp = PayloadError msg)
        \/ (response_status resp = 500%Z
            /\ exists msg at_time,
                 response_payload resp = PayloadInternalError msg false at_time))).
  { intros e w0. rewrite internal_error_eq. eexists _, _. split; [reflexivity|].
    right. right. split; [reflexivity|]. simpl. eauto. }
  unfold http_upload_medical_data, htry_except, hbind at 1, pure.
  destruct get_json as [e|body]; [apply Hfail|].
  unfold hbind at 1.
  destruct (field_is_missing_pure (lit "records") body w) as [missing ->].
  destruct missing as [e|[|]]; [apply Hfail| |].
  { eexists _, _. split; [reflexivity|]. right. left. simpl. eauto. }
  unfold hbind at 1.
  destruct (py_getitem body (lit "records")) as [e|records]; [apply Hfail|].
  destruct records as [| | | | |items|];
    try (eexists _, _; split; [reflexivity|]; right; left; simpl; eauto).
  unfold hbind at 1.
  destruct (upload_medical_records_any_cases env items w) as [w' [[e He]|(res & Hr & Ht & H)]].
  - rewrite He. apply Hfail.
  - rewrite Hr. eexists _, _. split; [reflexivity|]. left. simpl. eauto.
Qed.
